(** * Housing price prediction service: the serving path

    A shallow embedding of [api/schemas.py] (the [PropertyData] request
    schema) and [api/app.py] (the model store filled at startup and the
    [predict] endpoint), with the properties the specification states
    about them.

    Python values are modelled by the small universe [PyVal]; Python
    floats are IEEE binary64 numbers, which is what Rocq's primitive
    [float] is.  Dictionaries keyed by strings are [gmap string _]; a
    dictionary whose insertion order is observable (the output of
    [.dict()], whose key order becomes the column order of the table) is
    an association list. *)

From Stdlib Require Import ZArith Floats Ascii.
From stdpp Require Import base option list strings pretty gmap fin_maps.

Open Scope string_scope.

Set Warnings "-register-all".

(** ** Python and JSON values *)

(** The Python objects that can sit in a field of a validated record and
    in a cell of the table given to the pipeline. *)
Inductive PyVal : Type :=
| VNone
| VInt (z : Z)
| VFloat (f : float)
| VStr (s : string).

(** A parsed JSON document, as [json.loads] delivers it: integer literals
    become [int], literals with a fraction or an exponent become
    [float]. *)
Inductive Json : Type :=
| JNull
| JBool (b : bool)
| JInt (z : Z)
| JFloat (f : float)
| JStr (s : string)
| JArr (items : list Json)
| JObj (members : list (string * Json)).

(** [float(z)] for a Python [int]: round to nearest even; Python raises
    [OverflowError] where the rounded value leaves the binary64 range, so
    the conversion is partial. *)
Definition float_of_int (z : Z) : option float :=
  let f := SF2Prim (binary_normalize prec emax z 0 false) in
  if PrimFloat.is_infinity f then None else Some f.

(** ** The request schema ([api/schemas.py]) *)

(** The annotations used by [PropertyData]. *)
Inductive FieldType : Type :=
| TStr
| TFloat
| TInt
| TOptional (t : FieldType).

(** One line of the class body: [name: type] or [name: type = default]. *)
Record FieldDecl : Type := mkField {
  fname : string;
  ftype : FieldType;
  fdefault : option PyVal
}.

Definition required (name : string) (t : FieldType) : FieldDecl :=
  mkField name t None.

Definition defaulted (name : string) (t : FieldType) (d : PyVal) : FieldDecl :=
  mkField name t (Some d).

(** [class PropertyData(BaseModel)], field by field, in declaration
    order. *)
Definition PropertyData_fields : list FieldDecl :=
  [ required "city" TStr;
    required "type" TStr;
    required "squareMeters" TFloat;
    required "rooms" TFloat;
    defaulted "floor" (TOptional TFloat) (VFloat 1%float);
    defaulted "floorCount" (TOptional TFloat) (VFloat 1%float);
    defaulted "buildYear" (TOptional TFloat) (VFloat 1980%float);
    required "centreDistance" TFloat;
    required "poiCount" TFloat;
    required "schoolDistance" TFloat;
    required "clinicDistance" TFloat;
    required "postOfficeDistance" TFloat;
    required "kindergartenDistance" TFloat;
    required "restaurantDistance" TFloat;
    required "collegeDistance" TFloat;
    required "pharmacyDistance" TFloat;
    required "ownership" TStr;
    defaulted "buildingMaterial" (TOptional TStr) (VStr "brick");
    defaulted "condition" (TOptional TStr) (VStr "unknown");
    defaulted "hasParkingSpace" TInt (VInt 0);
    defaulted "hasBalcony" TInt (VInt 0);
    defaulted "hasElevator" TInt (VInt 0);
    defaulted "hasSecurity" TInt (VInt 0);
    defaulted "hasStorageRoom" TInt (VInt 0) ].

Definition field_names (schema : list FieldDecl) : list string :=
  fname <$> schema.

(** The five amenity flags. *)
Definition amenity_flags : list string :=
  [ "hasParkingSpace"; "hasBalcony"; "hasElevator"; "hasSecurity";
    "hasStorageRoom" ].

(** The fields the specification calls optional: those with a default. *)
Definition is_optional (d : FieldDecl) : bool :=
  match fdefault d with Some _ => true | None => false end.

(** A request body: the JSON object of the request, as a dictionary. *)
Abbreviation Payload := (gmap string Json).

(** A model instance, and equally the dictionary [.dict()] returns: the
    declared fields in declaration order, each with its value. *)
Abbreviation PropertyData := (list (string * PyVal)).

(** What the validator reports about one field. *)
Inductive ErrorKind : Type :=
| Missing
| TypeError.

Abbreviation FieldError := (string * ErrorKind)%type.

(** A JSON value is of the primitive type an annotation names: a number
    for [float], an integer for [int], a string for [str], and for
    [Optional[t]] also [null]. *)
Fixpoint well_typed (t : FieldType) (v : Json) : bool :=
  match t, v with
  | TStr, JStr _ => true
  | TFloat, JFloat _ => true
  | TFloat, JInt z => bool_decide (is_Some (float_of_int z))
  | TInt, JInt _ => true
  | TOptional _, JNull => true
  | TOptional t', _ => well_typed t' v
  | _, _ => false
  end.

(** A Python value inhabits an annotation. *)
Fixpoint has_type (t : FieldType) (v : PyVal) : bool :=
  match t, v with
  | TStr, VStr _ => true
  | TFloat, VFloat _ => true
  | TInt, VInt _ => true
  | TOptional _, VNone => true
  | TOptional t', _ => has_type t' v
  | _, _ => false
  end.

Section Validation.

(** Besides values of the annotated primitive type, pydantic accepts
    some values of another kind and converts them (a numeric string for
    a [float], a boolean for an [int]); which ones depends on its
    version and mode, and the class sets no option about it.  The
    conversion of such a value is a parameter of the validator; it
    yields a value of the annotated type or refuses. *)
Record Coercions : Type := mkCoercions {
  coerce_str : Json -> option string;
  coerce_float : Json -> option float;
  coerce_int : Json -> option Z
}.

Variable lax : Coercions.

(** Validation of a supplied value against an annotation. *)
Fixpoint validate_value (t : FieldType) (v : Json) : option PyVal :=
  match t with
  | TStr =>
      match v with
      | JStr s => Some (VStr s)
      | JNull => None
      | _ => VStr <$> coerce_str lax v
      end
  | TFloat =>
      match v with
      | JFloat f => Some (VFloat f)
      | JInt z => VFloat <$> float_of_int z
      | JNull => None
      | _ => VFloat <$> coerce_float lax v
      end
  | TInt =>
      match v with
      | JInt z => Some (VInt z)
      | JNull => None
      | _ => VInt <$> coerce_int lax v
      end
  | TOptional t' =>
      match v with
      | JNull => Some VNone
      | _ => validate_value t' v
      end
  end.

(** One field of the model: the supplied value validated, or the
    declared default when the key is absent, or an error. *)
Definition validate_field (d : FieldDecl) (body : Payload)
  : FieldError + PyVal :=
  match body !! fname d with
  | Some v =>
      match validate_value (ftype d) v with
      | Some x => inr x
      | None => inl (fname d, TypeError)
      end
  | None =>
      match fdefault d with
      | Some x => inr x
      | None => inl (fname d, Missing)
      end
  end.

(** The value a field gets in the instance when its validation succeeds. *)
Definition field_result (body : Payload) (d : FieldDecl) : string * PyVal :=
  (fname d,
   match validate_field d body with inr x => x | inl _ => VNone end).

(** All declared fields, in order.  Every offending field is reported;
    keys of the body that name no declared field are never looked at. *)
Fixpoint validate_fields (schema : list FieldDecl) (body : Payload)
  : list FieldError + PropertyData :=
  match schema with
  | [] => inr []
  | d :: rest =>
      match validate_field d body, validate_fields rest body with
      | inr x, inr xs => inr ((fname d, x) :: xs)
      | inr _, inl es => inl es
      | inl e, inr _ => inl [e]
      | inl e, inl es => inl (e :: es)
      end
  end.

(** Construction of a [PropertyData] instance from the request body. *)
Definition validate (body : Payload) : list FieldError + PropertyData :=
  validate_fields PropertyData_fields body.

End Validation.

(** The validator that accepts values of the annotated type only. *)
Definition strict : Coercions :=
  mkCoercions (fun _ => None) (fun _ => None) (fun _ => None).

(** ** Tables ([pandas.DataFrame]) *)

(** A table: its column labels and its rows, each row holding one cell
    per column.  The cells are the objects handed in; the column types
    pandas infers from them play no part here. *)
Record DataFrame : Type := mkDataFrame {
  columns : list string;
  rows : list (list PyVal)
}.

(** The keys of a sequence of dictionaries, each once, in the order in
    which they are first met. *)
Fixpoint first_seen (seen keys : list string) : list string :=
  match keys with
  | [] => []
  | k :: keys' =>
      if bool_decide (k ∈ seen) then first_seen seen keys'
      else k :: first_seen (k :: seen) keys'
  end.

Fixpoint dict_get (record : list (string * PyVal)) (k : string)
  : option PyVal :=
  match record with
  | [] => None
  | (k', v) :: record' => if bool_decide (k' = k) then Some v else dict_get record' k
  end.

(** [pd.DataFrame(records)] for a list of dictionaries: one row per
    dictionary, one column per key, a missing entry being NaN. *)
Definition pd_DataFrame (records : list (list (string * PyVal))) : DataFrame :=
  let cols := first_seen [] (concat (map (map fst) records)) in
  mkDataFrame cols
    (map (fun record => map (fun k => default (VFloat nan) (dict_get record k)) cols)
       records).

(** [data.dict()]: the fields of the instance, in declaration order. *)
Definition dict (data : PropertyData) : list (string * PyVal) := data.

(** ** Exceptions, responses *)

(** A raised Python exception (an instance of [Exception]): its class and
    the text [str(e)] gives. *)
Record PyException : Type := mkException {
  exc_class : string;
  exc_str : string
}.

Definition str (e : PyException) : string := exc_str e.

(** [HTTPException(status_code=..., detail=...)]. *)
Record HTTPException : Type := mkHTTPException {
  status_code : Z;
  detail : string
}.

(** The dictionary [predict] returns. *)
Record Response : Type := mkResponse {
  mode : string;
  predicted_price : float
}.

(** What [model.predict(df)] does: it returns a numeric array or
    raises. *)
Inductive Outcome : Type :=
| Returns (prediction : list float)
| Raises (e : PyException).

(** ** The service ([api/app.py]) *)

Section Service.

(** A loaded pipeline is an opaque object.  Its [predict] method may
    depend on and change the object's internal state, so a call yields
    an outcome and the object as the call leaves it. *)
Variable Pipeline : Type.
Variable pipeline_predict : Pipeline -> DataFrame -> Outcome * Pipeline.

(** The process: the global dictionary [models], holding each loaded
    object under its mode; what was printed; and, as instrumentation,
    the pipeline invocations made so far, oldest first, each with the
    object invoked and the table it was given. *)
Record World : Type := mkWorld {
  models : gmap string Pipeline;
  stdout : list string;
  calls : list (Pipeline * DataFrame)
}.

(** A computation that reads and changes the process and returns a
    value or raises. *)
Definition Exec (E A : Type) : Type := World -> (E + A) * World.

Definition ret {E A} (a : A) : Exec E A := fun w => (inr a, w).

Definition raise {E A} (e : E) : Exec E A := fun w => (inl e, w).

Definition bind {E A B} (m : Exec E A) (k : A -> Exec E B) : Exec E B :=
  fun w =>
    match m w with
    | (inr a, w') => k a w'
    | (inl e, w') => (inl e, w')
    end.

(** [try: body except Exception as e: handler(e)]. *)
Definition try_except {E E' A} (body : Exec E A) (handler : E -> Exec E' A)
  : Exec E' A :=
  fun w =>
    match body w with
    | (inr a, w') => (inr a, w')
    | (inl e, w') => handler e w'
    end.

Notation "x <- m ;; k" := (bind m (fun x => k))
  (at level 100, m at next level, right associativity).

Definition get_models {E} : Exec E (gmap string Pipeline) :=
  fun w => (inr (models w), w).

(** [models[key] = p]. *)
Definition set_model {E} (key : string) (p : Pipeline) : Exec E unit :=
  fun w => (inr tt, mkWorld (<[key := p]> (models w)) (stdout w) (calls w)).

Definition print {E} (line : string) : Exec E unit :=
  fun w => (inr tt, mkWorld (models w) (stdout w ++ [line]) (calls w)).

(** [models[key]]: a reference to the object stored under [key] (the
    key stands for the reference), or [KeyError]. *)
Definition models_getitem (key : string) : Exec PyException string :=
  fun w =>
    match models w !! key with
    | Some _ => (inr key, w)
    | None => (inl (mkException "KeyError" ("'" +:+ key +:+ "'")), w)
    end.

(** [model.predict(df)] on the object stored under [model]: the call is
    recorded, the object is left as the call leaves it. *)
Definition model_predict (model : string) (df : DataFrame)
  : Exec PyException (list float) :=
  fun w =>
    match models w !! model with
    | Some p =>
        let (out, p') := pipeline_predict p df in
        let w' := mkWorld (<[model := p']> (models w)) (stdout w)
                    (calls w ++ [(p, df)]) in
        match out with
        | Returns prediction => (inr prediction, w')
        | Raises e => (inl e, w')
        end
    | None => (inl (mkException "KeyError" ("'" +:+ model +:+ "'")), w)
    end.

(** [prediction[0]] on a numeric array. *)
Definition getitem0 (prediction : list float) : Exec PyException float :=
  match prediction with
  | x :: _ => ret x
  | [] =>
      raise (mkException "IndexError"
               "index 0 is out of bounds for axis 0 with size 0")
  end.

(** [float(x)] on an element of a numeric array: the same number. *)
Definition py_float (x : float) : float := x.

(** *** Startup *)

(** A file: a pickled pipeline, or something [joblib.load] fails on
    with the given exception. *)
Inductive File : Type :=
| Artifact (p : Pipeline)
| Unloadable (e : PyException).

Variable fs : gmap string File.

Definition os_path_exists (path : string) : bool :=
  bool_decide (is_Some (fs !! path)).

Definition joblib_load (path : string) : Exec PyException Pipeline :=
  match fs !! path with
  | Some (Artifact p) => ret p
  | Some (Unloadable e) => raise e
  | None => raise (mkException "FileNotFoundError" path)
  end.

(** [load_models()], run once at startup. *)
Definition load_models : Exec PyException unit :=
  let sale_path := "models/model_sale.pkl" in
  let rent_path := "models/model_rent.pkl" in
  _ <- (if os_path_exists sale_path then
          p <- joblib_load sale_path ;;
          _ <- set_model "sale" p ;;
          print "Sale model loaded."
        else ret tt) ;;
  if os_path_exists rent_path then
    p <- joblib_load rent_path ;;
    _ <- set_model "rent" p ;;
    print "Rent model loaded."
  else ret tt.

(** The process as the module body leaves it: [models = {}]. *)
Definition initial_world : World := mkWorld ∅ [] [].

(** *** The prediction endpoint *)

(** [predict(mode, data)]. *)
Definition predict (mode : string) (data : PropertyData)
  : Exec HTTPException Response :=
  if bool_decide (mode ∉ ["sale"; "rent"]) then
    raise (mkHTTPException 400 "Mode must be 'sale' or 'rent'")
  else
    ms <- get_models ;;
    if bool_decide (mode ∉ dom ms) then
      raise (mkHTTPException 500 ("Model for " +:+ mode +:+ " not loaded"))
    else
      let input_data := dict data in
      let df := pd_DataFrame [input_data] in
      try_except
        (model <- models_getitem mode ;;
         prediction <- model_predict model df ;;
         x <- getitem0 prediction ;;
         ret (mkResponse mode (py_float x)))
        (fun e => raise (mkHTTPException 500 (str e))).

(** What a request to [POST /predict/{mode}] ends in: the framework
    validates the body first and answers 422 with the field errors when
    that fails; otherwise it calls [predict] on the instance. *)
Inductive RouteResult : Type :=
| Unprocessable (errors : list FieldError)
| Handled (r : HTTPException + Response).

Definition post_predict (lax : Coercions) (mode : string) (body : Payload)
  : World -> RouteResult * World :=
  fun w =>
    match validate lax body with
    | inl errors => (Unprocessable errors, w)
    | inr data =>
        let (r, w') := predict mode data w in (Handled r, w')
    end.

(** *** Sequences of requests *)

(** The process after a sequence of [predict] calls, whatever they
    answer. *)
Fixpoint run_requests (requests : list (string * PropertyData)) (w : World)
  : World :=
  match requests with
  | [] => w
  | (mode, data) :: rest => run_requests rest (snd (predict mode data w))
  end.

(** No object of the store is changed by a call of its [predict]. *)
Definition immutable (store : gmap string Pipeline) : Prop :=
  ∀ mode p df,
    store !! mode = Some p → snd (pipeline_predict p df) = p.

End Service.

Arguments mkWorld {Pipeline}.
Arguments models {Pipeline}.
Arguments stdout {Pipeline}.
Arguments calls {Pipeline}.
Arguments initial_world {Pipeline}.
Arguments Artifact {Pipeline}.
Arguments Unloadable {Pipeline}.

Arguments Exec Pipeline E A : clear implicits.
Arguments predict {Pipeline} pipeline_predict mode data _.
Arguments post_predict {Pipeline} pipeline_predict lax mode body _.
Arguments load_models {Pipeline} fs _.
Arguments os_path_exists {Pipeline} fs path.
Arguments run_requests {Pipeline} pipeline_predict requests w.
Arguments immutable {Pipeline} pipeline_predict store.

(** The file at a path, when it is a loadable artifact. *)
Definition artifact_at {Pipeline} (fs : gmap string (File Pipeline))
  (path : string) : option Pipeline :=
  match fs !! path with
  | Some (Artifact p) => Some p
  | _ => None
  end.

(** Whatever exists at the path is a loadable artifact. *)
Definition loadable {Pipeline} (fs : gmap string (File Pipeline))
  (path : string) : bool :=
  match fs !! path with
  | Some (Unloadable _) => false
  | _ => true
  end.

(** The artifact file of a mode: ["models/model_sale.pkl"] and
    ["models/model_rent.pkl"] in [load_models], built as
    [f"models/model_{mode}.pkl"] in [plot_importance]
    ([src/models/inspect_model.py]). *)
Definition model_path (mode : string) : string :=
  "models/model_" +:+ mode +:+ ".pkl".

(** ** The trained columns ([src/models/train_model.py]) *)

(** The column names the pipeline's preprocessor selects from the table
    it is given: the lists [build_pipeline] hands to the column
    transformer. *)
Definition CATEGORICAL_FEATURES : list string :=
  [ "city"; "type"; "ownership"; "buildingMaterial"; "condition" ].

Definition NUMERICAL_FEATURES : list string :=
  [ "squareMeters"; "rooms"; "floor"; "floorCount"; "buildYear";
    "centreDistance"; "poiCount"; "schoolDistance"; "clinicDistance";
    "postOfficeDistance"; "kindergartenDistance"; "restaurantDistance";
    "collegeDistance"; "pharmacyDistance"; "hasParkingSpace"; "hasBalcony";
    "hasElevator"; "hasSecurity"; "hasStorageRoom" ].

(** A number, a string. *)
Definition is_number (v : PyVal) : bool :=
  match v with VInt _ | VFloat _ => true | _ => false end.

Definition is_string (v : PyVal) : bool :=
  match v with VStr _ => true | _ => false end.

(** The declaration of a field, by name. *)
Definition field_named (name : string) : option FieldDecl :=
  find (fun d => bool_decide (fname d = name)) PropertyData_fields.

(** The annotation without its [Optional]. *)
Fixpoint base_type (t : FieldType) : FieldType :=
  match t with
  | TOptional t' => base_type t'
  | _ => t
  end.

(** ** The feature names of the importance plot
    ([src/models/inspect_model.py]) *)

(** The module's own list of numerical features. *)
Definition inspect_NUMERICAL_FEATURES : list string :=
  [ "squareMeters"; "rooms"; "floor"; "floorCount"; "buildYear";
    "centreDistance"; "poiCount"; "schoolDistance"; "clinicDistance";
    "postOfficeDistance"; "kindergartenDistance"; "restaurantDistance";
    "collegeDistance"; "pharmacyDistance" ].

(** [get_feature_names(pipeline)]: the numerical names followed by the
    names the fitted one-hot encoder of the pipeline gives for the
    categorical features; that method of the encoder is the parameter. *)
Definition get_feature_names
  (get_feature_names_out : list string → list string) : list string :=
  let num_names := inspect_NUMERICAL_FEATURES in
  let cat_names := get_feature_names_out CATEGORICAL_FEATURES in
  (num_names ++ cat_names)%list.

(** ** The form of the front end ([frontend/app.py]) *)

Module Frontend.

(** The values the widgets hold when the form is submitted.  A number
    input whose bounds, value and step are integers holds an [int], one
    with float bounds a [float]; a checkbox holds a [bool]; a radio and
    a select box hold one of their options. *)
Record Form : Type := mkForm {
  mode : string;
  city : string;
  type_ : string;
  ownership : string;
  square_meters : float;
  rooms : Z;
  build_year : Z;
  centre_dist : float;
  floor : Z;
  floor_count : Z;
  school_dist : float;
  clinic_dist : float;
  poi_count : Z;
  post_dist : float;
  kindergarten_dist : float;
  restaurant_dist : float;
  college_dist : float;
  pharmacy_dist : float;
  has_parking : bool;
  has_balcony : bool;
  has_elevator : bool;
  has_security : bool;
  has_storage : bool
}.

Definition mode_options : list string := [ "sale"; "rent" ].

Definition city_options : list string :=
  [ "szczecin"; "warszawa"; "krakow"; "poznan"; "gdansk"; "wroclaw"; "lodz";
    "gdynia"; "bialystok"; "bydgoszcz"; "czestochowa"; "katowice"; "lublin";
    "radom"; "rzeszow"; "sosnowiec" ].

Definition type_options : list string :=
  [ "blockOfFlats"; "tenement"; "apartmentBuilding" ].

Definition ownership_options : list string :=
  [ "condominium"; "cooperative"; "municipal" ].

(** What the widgets guarantee about their values: the options of the
    radio and the select boxes, and the [min_value] and [max_value] of
    the number inputs; [current_year] is the year of the clock. *)
Definition within_widgets (current_year : Z) (f : Form) : bool :=
  bool_decide (mode f ∈ mode_options)
  && bool_decide (city f ∈ city_options)
  && bool_decide (type_ f ∈ type_options)
  && bool_decide (ownership f ∈ ownership_options)
  && (10 <=? square_meters f)%float && (square_meters f <=? 500)%float
  && (1 <=? rooms f)%Z && (rooms f <=? 10)%Z
  && (1800 <=? build_year f)%Z && (build_year f <=? current_year + 5)%Z
  && (0 <=? centre_dist f)%float
  && (0 <=? floor f)%Z && (floor f <=? 50)%Z
  && (1 <=? floor_count f)%Z && (floor_count f <=? 50)%Z
  && (0 <=? school_dist f)%float && (0 <=? clinic_dist f)%float
  && (0 <=? poi_count f)%Z
  && (0 <=? post_dist f)%float && (0 <=? kindergarten_dist f)%float
  && (0 <=? restaurant_dist f)%float && (0 <=? college_dist f)%float
  && (0 <=? pharmacy_dist f)%float.

(** [int(b)] for a checkbox value. *)
Definition int (b : bool) : Z := if b then 1%Z else 0%Z.

(** The entries of the dictionary [payload], in the order written. *)
Definition payload_items (f : Form) : list (string * Json) :=
  [ ("city", JStr (city f));
    ("type", JStr (type_ f));
    ("squareMeters", JFloat (square_meters f));
    ("rooms", JInt (rooms f));
    ("floor", JInt (floor f));
    ("floorCount", JInt (floor_count f));
    ("buildYear", JInt (build_year f));
    ("centreDistance", JFloat (centre_dist f));
    ("poiCount", JInt (poi_count f));
    ("schoolDistance", JFloat (school_dist f));
    ("clinicDistance", JFloat (clinic_dist f));
    ("postOfficeDistance", JFloat (post_dist f));
    ("kindergartenDistance", JFloat (kindergarten_dist f));
    ("restaurantDistance", JFloat (restaurant_dist f));
    ("collegeDistance", JFloat (college_dist f));
    ("pharmacyDistance", JFloat (pharmacy_dist f));
    ("ownership", JStr (ownership f));
    ("buildingMaterial", JStr "brick");
    ("condition", JStr "unknown");
    ("hasParkingSpace", JInt (int (has_parking f)));
    ("hasBalcony", JInt (int (has_balcony f)));
    ("hasElevator", JInt (int (has_elevator f)));
    ("hasSecurity", JInt (int (has_security f)));
    ("hasStorageRoom", JInt (int (has_storage f))) ].

(** The JSON body [requests.post(..., json=payload)] sends. *)
Definition payload (f : Form) : Payload := list_to_map (payload_items f).

(** What submitting the form does before any answer arrives: it shows
    the logical error, or posts the payload to the route of the mode. *)
Inductive Action : Type :=
| ShowError (message : string)
| PostRequest (route_mode : string) (body : Payload).

(** The [if submitted:] block, up to the request. *)
Definition on_submit (f : Form) : Action :=
  if (floor f >? floor_count f)%Z then
    ShowError ("❌ Logical Error: You selected Floor " +:+ pretty (floor f)
               +:+ ", but the building only has " +:+ pretty (floor_count f)
               +:+ " floors.")
  else PostRequest (mode f) (payload f).

End Frontend.

(** ** The data-cleaning script ([src/data/preprocess.py]) *)

Module Preprocess.

(** *** String methods *)

(** [s.split(sep)] for a separator of one character. *)
Fixpoint split (sep : Ascii.ascii) (s : string) : list string :=
  match s with
  | EmptyString => [EmptyString]
  | String c s' =>
      if Ascii.eqb c sep then EmptyString :: split sep s'
      else match split sep s' with
           | part :: parts => String c part :: parts
           | [] => [String c EmptyString]
           end
  end.

(** [os.path.basename(path)]: what follows the last slash. *)
Definition basename (path : string) : string :=
  List.last (split "/"%char path) EmptyString.

(** [s.replace(old, new)] for a non-empty [old], scanning from the left;
    [skip] counts the characters of a match still to be passed over. *)
Fixpoint replace_from (old new s : string) (skip : nat) : string :=
  match s with
  | EmptyString => EmptyString
  | String c s' =>
      match skip with
      | S k => replace_from old new s' k
      | O =>
          if String.prefix old s
          then new +:+ replace_from old new s' (String.length old - 1)
          else String c (replace_from old new s' 0)
      end
  end.

Definition replace (old new s : string) : string := replace_from old new s 0.

(** [l[-k]] for [k] at least 1. *)
Definition from_end {A} (l : list A) (k : nat) : PyException + A :=
  match l !! (length l - k)%nat with
  | Some x => if decide (k ≤ length l)%nat then inr x
              else inl (mkException "IndexError" "list index out of range")
  | None => inl (mkException "IndexError" "list index out of range")
  end.

(** The text [load_and_combine_data] hands to [pd.to_datetime] for a
    file: year and month are the last two pieces of the base name, cut at
    underscores, every [.csv] removed. *)
Definition report_date_text (filename : string) : PyException + string :=
  let basename := basename filename in
  let parts := split "_"%char (replace ".csv" "" basename) in
  match from_end parts 2 with
  | inl e => inl e
  | inr year =>
      match from_end parts 1 with
      | inl e => inl e
      | inr month => inr (year +:+ "-" +:+ month +:+ "-01")
      end
  end.

(** A character does not occur in a string. *)
Fixpoint free_of (c : Ascii.ascii) (s : string) : bool :=
  match s with
  | EmptyString => true
  | String c' s' => negb (Ascii.eqb c' c) && free_of c s'
  end.

(** *** Tables *)

(** A cell of a combined table: a Python value read from a file, or the
    timestamp of the report date, kept as the text it was made of. *)
Inductive Cell : Type :=
| Obj (v : PyVal)
| Timestamp (text : string).

Record Table : Type := mkTable {
  columns : list string;
  rows : list (list Cell)
}.

(** [pd.isna] on a cell: [None] and NaN. *)
Definition isna (c : Cell) : bool :=
  match c with
  | Obj VNone => true
  | Obj (VFloat f) => PrimFloat.is_nan f
  | _ => false
  end.

(** The position of a column. *)
Fixpoint position (col : string) (cols : list string) : option nat :=
  match cols with
  | [] => None
  | c :: cols' =>
      if bool_decide (c = col) then Some O else S <$> position col cols'
  end.

(** The cells of a column, top to bottom; an absent column has none. *)
Definition column (col : string) (t : Table) : list Cell :=
  match position col (columns t) with
  | Some i => omap (fun row => row !! i) (rows t)
  | None => []
  end.

(** [df[col] = df[col].<f>]: the column rewritten cell by cell, in
    place. *)
Definition map_column (col : string) (f : Cell → Cell) (t : Table) : Table :=
  match position col (columns t) with
  | Some i => mkTable (columns t) (map (alter f i) (rows t))
  | None => t
  end.

(** [.map({'yes': 1, 'no': 0}).fillna(0).astype(int)] on one cell: the
    dictionary knows the two strings, everything else becomes NaN and
    then 0. *)
Definition yes_no (c : Cell) : Cell :=
  match c with
  | Obj (VStr s) =>
      if String.eqb s "yes" then Obj (VInt 1)
      else if String.eqb s "no" then Obj (VInt 0)
      else Obj (VInt 0)
  | _ => Obj (VInt 0)
  end.

(** [.fillna('unknown')] on one cell. *)
Definition fill_unknown (c : Cell) : Cell :=
  if isna c then Obj (VStr "unknown") else c.

Definition boolean_cols : list string :=
  [ "hasParkingSpace"; "hasBalcony"; "hasElevator"; "hasSecurity";
    "hasStorageRoom" ].

Section CleanData.

(** Whether pandas takes two rows for duplicates of one another is a
    parameter: it compares them cell by cell with a test of its own. *)
Variable same_row : list Cell → list Cell → bool.

(** [drop_duplicates()]: a row goes when a row before it, kept or not, is
    its duplicate. *)
Fixpoint drop_duplicates_from (before rows : list (list Cell))
  : list (list Cell) :=
  match rows with
  | [] => []
  | row :: rows' =>
      if existsb (fun earlier => same_row earlier row) before
      then drop_duplicates_from (before ++ [row]) rows'
      else row :: drop_duplicates_from (before ++ [row]) rows'
  end.

Definition drop_duplicates (t : Table) : Table :=
  mkTable (columns t) (drop_duplicates_from [] (rows t)).

(** [dropna(subset=[col])]. *)
Definition dropna (col : string) (t : Table) : PyException + Table :=
  match position col (columns t) with
  | Some i =>
      inr (mkTable (columns t)
             (List.filter (fun row => match row !! i with
                                      | Some c => negb (isna c)
                                      | None => false
                                      end) (rows t)))
  | None => inl (mkException "KeyError" ("['" +:+ col +:+ "']"))
  end.

(** The first two steps of [clean_data], which change the caller's table
    in place. *)
Definition clean_in_place (t : Table) : Table :=
  let t :=
    fold_left (fun t col =>
                 if bool_decide (col ∈ columns t) then map_column col yes_no t
                 else t)
      boolean_cols t in
  if bool_decide ("condition" ∈ columns t)
  then map_column "condition" fill_unknown t
  else t.

(** [clean_data(df)]: the caller's table as the call leaves it, and the
    table returned or the exception raised. *)
Definition clean_data (df : Table) : Table * (PyException + Table) :=
  let df := clean_in_place df in
  (df, dropna "price" (drop_duplicates df)).

End CleanData.

End Preprocess.

(** ** Predicates on request bodies *)

(** The body supplies this field with a value of its primitive type. *)
Definition supplied (body : Payload) (d : FieldDecl) : bool :=
  match body !! fname d with
  | Some v => well_typed (ftype d) v
  | None => false
  end.

Definition omitted (body : Payload) (d : FieldDecl) : bool :=
  bool_decide (body !! fname d = None).

(** Every required field is supplied with a value of its primitive type
    and every optional field is left out. *)
Definition required_only (body : Payload) : bool :=
  forallb (fun d => if is_optional d then omitted body d else supplied body d)
    PropertyData_fields.

(** Every field is individually well-typed: a required field is supplied
    with a value of its type, an optional one is supplied so or left
    out. *)
Definition fields_well_typed (body : Payload) : bool :=
  forallb (fun d => supplied body d || (is_optional d && omitted body d))
    PropertyData_fields.

(** The body gives no value to any declared field. *)
Definition undeclared (extra : Payload) : bool :=
  forallb (fun k => bool_decide (extra !! k = None))
    (field_names PropertyData_fields).

(** ** Sample data *)

(** The request of the specification's end-to-end example. *)
Definition spec_example : Payload :=
  list_to_map
    [ ("city", JStr "warszawa"); ("type", JStr "blockOfFlats");
      ("squareMeters", JFloat 50%float); ("rooms", JFloat 2%float);
      ("centreDistance", JFloat 2%float); ("poiCount", JFloat 10%float);
      ("schoolDistance", JFloat 0.5%float); ("clinicDistance", JFloat 1%float);
      ("postOfficeDistance", JFloat 0.5%float);
      ("kindergartenDistance", JFloat 0.5%float);
      ("restaurantDistance", JFloat 0.5%float);
      ("collegeDistance", JFloat 2%float);
      ("pharmacyDistance", JFloat 0.5%float);
      ("ownership", JStr "condominium") ].


(** The same request with a floor above the number of floors. *)
Definition tenth_floor_of_four : Payload :=
  <["floor" := JFloat 10%float]> (<["floorCount" := JFloat 4%float]> spec_example).

(** The same request with an amenity flag that is no truth value and an
    explicit [null] for the floor. *)
Definition five_parking_null_floor : Payload :=
  <["hasParkingSpace" := JInt 5]> (<["floor" := JNull]> spec_example).

(** Keys no field of the schema has. *)
Definition extras : Payload :=
  {[ "price" := JInt 1; "comment" := JStr "urgent" ]}.

(** The instance [spec_example] validates to. *)
Definition example_record : PropertyData :=
  [ ("city", VStr "warszawa"); ("type", VStr "blockOfFlats");
    ("squareMeters", VFloat 50%float); ("rooms", VFloat 2%float);
    ("floor", VFloat 1%float); ("floorCount", VFloat 1%float);
    ("buildYear", VFloat 1980%float); ("centreDistance", VFloat 2%float);
    ("poiCount", VFloat 10%float); ("schoolDistance", VFloat 0.5%float);
    ("clinicDistance", VFloat 1%float);
    ("postOfficeDistance", VFloat 0.5%float);
    ("kindergartenDistance", VFloat 0.5%float);
    ("restaurantDistance", VFloat 0.5%float);
    ("collegeDistance", VFloat 2%float);
    ("pharmacyDistance", VFloat 0.5%float);
    ("ownership", VStr "condominium");
    ("buildingMaterial", VStr "brick"); ("condition", VStr "unknown");
    ("hasParkingSpace", VInt 0); ("hasBalcony", VInt 0);
    ("hasElevator", VInt 0); ("hasSecurity", VInt 0);
    ("hasStorageRoom", VInt 0) ].

(** Pipelines to run the service on: one that always predicts the same
    price, one whose [predict] always raises, one that returns an empty
    array, and one that changes with every call. *)
Inductive Sample : Type :=
| Constant (price : float)
| Failing (message : string)
| Empty
| Drifting (price : float).

Definition sample_predict (p : Sample) (df : DataFrame) : Outcome * Sample :=
  match p with
  | Constant price => (Returns [price], p)
  | Failing message => (Raises (mkException "ValueError" message), p)
  | Empty => (Returns [], p)
  | Drifting price => (Returns [price], Drifting (price + 1)%float)
  end.

Definition world_of (store : gmap string Sample) : World Sample :=
  mkWorld store [] [].


(** A process with a sale pipeline only, one whose sale pipeline fails,
    and a models directory holding the sale artifact only. *)
Definition sale_only : World Sample :=
  world_of {[ "sale" := Constant 350000%float ]}.

Definition failing_sale : World Sample :=
  world_of {[ "sale" := Failing "Input contains NaN" ]}.

Definition sale_file_only : gmap string (File Sample) :=
  {[ "models/model_sale.pkl" := Artifact (Constant 350000%float) ]}.


Definition tenth_floor_form : Frontend.Form :=
  Frontend.mkForm "rent" "krakow" "tenement" "municipal"
    50%float 2 2000 2%float 10 4 0.5%float 1%float 10
    0.5%float 0.5%float 0.5%float 2%float 0.5%float
    false false false false false.

(** The example request with an explicit null for an amenity flag. *)
Definition null_balcony : Payload :=
  <["hasBalcony" := JNull]> spec_example.

(** A test for duplicate rows to run the cleaning with: the same cells,
    cell by cell, a NaN being the same as a NaN. *)
Definition same_cell (a b : Preprocess.Cell) : bool :=
  match a, b with
  | Preprocess.Obj VNone, Preprocess.Obj VNone => true
  | Preprocess.Obj (VInt x), Preprocess.Obj (VInt y) => (x =? y)%Z
  | Preprocess.Obj (VFloat x), Preprocess.Obj (VFloat y) =>
      PrimFloat.Leibniz.eqb x y
  | Preprocess.Obj (VStr x), Preprocess.Obj (VStr y) => String.eqb x y
  | Preprocess.Timestamp x, Preprocess.Timestamp y => String.eqb x y
  | _, _ => false
  end.

Fixpoint same_cells (a b : list Preprocess.Cell) : bool :=
  match a, b with
  | [], [] => true
  | x :: a', y :: b' => same_cell x y && same_cells a' b'
  | _, _ => false
  end.

(** A small combined table: a listing, one without a price, and the
    first listing again. *)
Definition raw_listings : Preprocess.Table :=
  Preprocess.mkTable [ "price"; "condition"; "hasBalcony" ]
    [ [ Preprocess.Obj (VFloat 500000%float); Preprocess.Obj (VFloat nan);
        Preprocess.Obj (VStr "yes") ];
      [ Preprocess.Obj (VFloat nan); Preprocess.Obj (VStr "low");
        Preprocess.Obj (VStr "no") ];
      [ Preprocess.Obj (VFloat 500000%float); Preprocess.Obj (VFloat nan);
        Preprocess.Obj (VStr "yes") ] ].

(** The table the cleaning returns for it. *)
Definition clean_listings : Preprocess.Table :=
  Preprocess.mkTable [ "price"; "condition"; "hasBalcony" ]
    [ [ Preprocess.Obj (VFloat 500000%float); Preprocess.Obj (VStr "unknown");
        Preprocess.Obj (VInt 1) ] ].

(** Membership of a declaration in the schema. *)
Ltac in_schema :=
  unfold PropertyData_fields; repeat first [by left | right].

(** ** Facts about validation *)

Section ValidationFacts.

Variable lax : Coercions.

Ltac case_value v :=
  destruct v; simpl in *; try discriminate; try done;
  repeat match goal with
         | H : context [_ <$> ?o] |- _ => destruct o; simpl in H
         | |- context [_ <$> ?o] => destruct o; simpl
         end;
  try discriminate; simplify_eq; try done.

Lemma validate_value_well_typed t v :
  well_typed t v = true → is_Some (validate_value lax t v).
Proof.
  revert v. induction t as [| | |t IH]; intros v Hv.
  - case_value v.
  - destruct v; simpl in *; try discriminate; try done.
    apply bool_decide_eq_true in Hv. destruct Hv as [f ->]. by eexists.
  - case_value v.
  - destruct v; simpl in *; try done; by apply IH.
Qed.

Lemma validate_value_has_type t v x :
  validate_value lax t v = Some x → has_type t x = true.
Proof.
  revert v x. induction t as [| | |t IH]; intros v x Hx.
  - case_value v.
  - case_value v.
  - case_value v.
  - assert (x = VNone ∨ validate_value lax t v = Some x) as [->|Hx'].
    { destruct v; simpl in Hx; simplify_eq; auto. }
    + done.
    + apply IH in Hx'. simpl. by destruct x, t.
Qed.

(** A supplied value validates to [None] only if it is [null]. *)
Lemma validate_value_none t v :
  validate_value lax t v = Some VNone → v = JNull.
Proof.
  revert v. induction t as [| | |t IH]; intros v Hx.
  - case_value v.
  - case_value v.
  - case_value v.
  - destruct v; simpl in Hx; try done; by apply IH in Hx.
Qed.

Lemma validate_fields_inr schema body data :
  validate_fields lax schema body = inr data →
  Forall (fun d => ∃ x, validate_field lax d body = inr x) schema
  ∧ data = map (field_result lax body) schema.
Proof.
  revert data. induction schema as [|d schema IH]; intros data H; simpl in H.
  - simplify_eq. by split.
  - unfold field_result. simpl.
    destruct (validate_field lax d body) as [e|x] eqn:Hd,
             (validate_fields lax schema body) as [es|xs]; simplify_eq.
    destruct (IH xs eq_refl) as [Hall ->]. split; [|done].
    constructor; [by eexists | done].
Qed.

Lemma validate_fields_ok schema body :
  Forall (fun d => ∃ x, validate_field lax d body = inr x) schema →
  validate_fields lax schema body = inr (map (field_result lax body) schema).
Proof.
  induction 1 as [|d schema [x Hx] _ IH]; simpl; [done|].
  unfold field_result at 1. by rewrite Hx, IH.
Qed.

Lemma dict_get_field_result body schema d :
  NoDup (field_names schema) → d ∈ schema →
  dict_get (map (field_result lax body) schema) (fname d)
  = Some (snd (field_result lax body d)).
Proof.
  unfold field_names. induction schema as [|d' schema IH]; intros Hnd Hin.
  - by apply elem_of_nil in Hin.
  - rewrite fmap_cons in Hnd. apply NoDup_cons in Hnd as [Hnotin Hnd].
    simpl. case_bool_decide as Hname.
    + apply elem_of_cons in Hin as [->|Hin]; [done|].
      exfalso. apply Hnotin. rewrite Hname. by apply list_elem_of_fmap_2.
    + apply elem_of_cons in Hin as [->|Hin]; [done|]. by apply IH.
Qed.

Lemma dict_get_inv (data : list (string * PyVal)) k v :
  dict_get data k = Some v → (k, v) ∈ data.
Proof.
  induction data as [|[k' v'] data IH]; simpl; [done|].
  case_bool_decide; intros; simplify_eq; [left | right; auto].
Qed.

Lemma fields_nodup : NoDup (field_names PropertyData_fields).
Proof. apply (bool_decide_unpack _). by vm_compute. Qed.

(** A successful validation gives every declared field the value its
    own validation yields. *)
Lemma validate_fields_lookup schema body data d :
  NoDup (field_names schema) →
  validate_fields lax schema body = inr data → d ∈ schema →
  ∃ x, validate_field lax d body = inr x
       ∧ dict_get data (fname d) = Some x.
Proof.
  intros Hnd Hv Hd. apply validate_fields_inr in Hv as [Hall ->].
  rewrite Forall_forall in Hall. destruct (Hall d Hd) as [x Hx].
  exists x. split; [done|].
  rewrite (dict_get_field_result body schema d Hnd Hd).
  unfold field_result. by rewrite Hx.
Qed.

(** Conversely an entry of the instance belongs to a declared field. *)
Lemma validate_fields_lookup_inv schema body data k x :
  validate_fields lax schema body = inr data → dict_get data k = Some x →
  ∃ d, d ∈ schema ∧ fname d = k ∧ validate_field lax d body = inr x.
Proof.
  intros Hv Hk. apply validate_fields_inr in Hv as [Hall ->].
  apply dict_get_inv, list_elem_of_fmap in Hk as (d & Heq & Hd).
  rewrite Forall_forall in Hall. destruct (Hall d Hd) as [y Hy].
  unfold field_result in Heq. rewrite Hy in Heq.
  simplify_eq. by exists d.
Qed.

Lemma validate_fields_names schema body data :
  validate_fields lax schema body = inr data →
  map fst data = field_names schema.
Proof.
  intros Hv. apply validate_fields_inr in Hv as [_ ->].
  unfold field_names. by rewrite map_map.
Qed.

Lemma validate_lookup body data d :
  validate lax body = inr data → d ∈ PropertyData_fields →
  ∃ x, validate_field lax d body = inr x
       ∧ dict_get data (fname d) = Some x.
Proof. exact (validate_fields_lookup _ body data d fields_nodup). Qed.

Lemma validate_lookup_inv body data k x :
  validate lax body = inr data → dict_get data k = Some x →
  ∃ d, d ∈ PropertyData_fields ∧ fname d = k
       ∧ validate_field lax d body = inr x.
Proof. exact (validate_fields_lookup_inv _ body data k x). Qed.

Lemma validate_names body data :
  validate lax body = inr data →
  map fst data = field_names PropertyData_fields.
Proof. exact (validate_fields_names _ body data). Qed.

Lemma validate_field_omitted d body x :
  body !! fname d = None → fdefault d = Some x →
  validate_field lax d body = inr x.
Proof. intros Hb Hd. unfold validate_field. by rewrite Hb, Hd. Qed.

Lemma validate_field_supplied d body :
  supplied body d = true → ∃ x, validate_field lax d body = inr x.
Proof.
  unfold supplied, validate_field. destruct (body !! fname d) as [v|]; [|done].
  intros [x Hx]%validate_value_well_typed. rewrite Hx. by eexists.
Qed.

End ValidationFacts.

(** ** Facts about the service *)

Section ServiceFacts.

Context {Pipeline : Type}.
Variable pipeline_predict : Pipeline → DataFrame → Outcome * Pipeline.

Implicit Types (w : World Pipeline) (p : Pipeline) (data : PropertyData).

Lemma valid_mode_cases (mode : string) :
  mode ∈ ["sale"; "rent"] ↔ mode = "sale" ∨ mode = "rent".
Proof. rewrite !elem_of_cons, elem_of_nil. tauto. Qed.

(** The first guard of [predict]. *)
Lemma predict_invalid mode data w :
  mode ∉ ["sale"; "rent"] →
  predict pipeline_predict mode data w
  = (inl (mkHTTPException 400 "Mode must be 'sale' or 'rent'"), w).
Proof. intros Hm. unfold predict. by rewrite bool_decide_eq_true_2. Qed.

(** The second guard. *)
Lemma predict_unloaded mode data w :
  mode ∈ ["sale"; "rent"] → models w !! mode = None →
  predict pipeline_predict mode data w
  = (inl (mkHTTPException 500 ("Model for " +:+ mode +:+ " not loaded")), w).
Proof.
  intros Hm Hw. unfold predict.
  rewrite bool_decide_eq_false_2 by (intros Hn; by apply Hn).
  unfold bind, get_models. simpl.
  by rewrite bool_decide_eq_true_2 by by apply not_elem_of_dom.
Qed.

(** Past both guards: one invocation, whose outcome decides the
    answer. *)
Lemma predict_loaded mode data w p :
  mode ∈ ["sale"; "rent"] → models w !! mode = Some p →
  predict pipeline_predict mode data w
  = let df := pd_DataFrame [dict data] in
    let w' := mkWorld (<[mode := snd (pipeline_predict p df)]> (models w))
                (stdout w) (calls w ++ [(p, df)]) in
    (match fst (pipeline_predict p df) with
     | Returns (x :: _) => inr (mkResponse mode x)
     | Returns [] =>
         inl (mkHTTPException 500
                "index 0 is out of bounds for axis 0 with size 0")
     | Raises e => inl (mkHTTPException 500 (str e))
     end, w').
Proof.
  intros Hm Hw. unfold predict.
  rewrite bool_decide_eq_false_2 by (intros Hn; by apply Hn).
  unfold bind at 1. unfold get_models. simpl.
  rewrite bool_decide_eq_false_2
    by (intros Hn; apply Hn, elem_of_dom; by eexists).
  unfold try_except, bind, models_getitem, model_predict. rewrite Hw. simpl.
  rewrite Hw.
  destruct (pipeline_predict p (pd_DataFrame [dict data])) as [[[|x rest]|e] p'];
    reflexivity.
Qed.

(** The table built from one instance. *)
Lemma first_seen_nodup (seen keys : list string) :
  NoDup keys → (∀ k, k ∈ keys → k ∉ seen) → first_seen seen keys = keys.
Proof.
  revert seen. induction keys as [|k keys IH]; intros seen Hnd Hseen; [done|].
  apply NoDup_cons in Hnd as [Hk Hnd]. simpl.
  rewrite bool_decide_eq_false_2 by (apply Hseen; left).
  f_equal. apply IH; [done|]. intros k' Hk' [->|Hin]%elem_of_cons; [done|].
  by apply (Hseen k'); [right|].
Qed.

Lemma dict_get_map_fst (record : list (string * PyVal)) :
  NoDup (map fst record) →
  map (fun k => default (VFloat nan) (dict_get record k)) (map fst record)
  = map snd record.
Proof.
  induction record as [|[k v] record IH]; intros Hnd; [done|].
  simpl in Hnd. apply NoDup_cons in Hnd as [Hk Hnd]. simpl.
  rewrite bool_decide_eq_true_2 by done. f_equal.
  rewrite <- IH by done. apply map_ext_in. intros k' Hk'.
  rewrite bool_decide_eq_false_2; [done|].
  intros ->. by apply Hk, list_elem_of_In.
Qed.

Lemma pd_DataFrame_single (record : list (string * PyVal)) :
  NoDup (map fst record) →
  pd_DataFrame [record] = mkDataFrame (map fst record) [map snd record].
Proof.
  intros Hnd. unfold pd_DataFrame. simpl. rewrite app_nil_r.
  rewrite first_seen_nodup by (done || by intros ? _ ?%elem_of_nil).
  by rewrite dict_get_map_fst.
Qed.

Lemma validated_table lax body data :
  validate lax body = inr data →
  pd_DataFrame [dict data]
  = mkDataFrame (field_names PropertyData_fields) [map snd data].
Proof.
  intros Hv. pose proof (validate_names lax body data Hv) as Hn.
  unfold dict. rewrite pd_DataFrame_single; rewrite Hn; [done|].
  apply fields_nodup.
Qed.

(** Only the store matters to the answer. *)
Lemma predict_answer_store mode data w1 w2 :
  models w1 = models w2 →
  fst (predict pipeline_predict mode data w1)
  = fst (predict pipeline_predict mode data w2).
Proof.
  intros Heq. destruct (decide (mode ∈ ["sale"; "rent"])) as [Hm|Hm].
  - destruct (models w1 !! mode) as [p|] eqn:Hw.
    + rewrite (predict_loaded mode data w1 p), (predict_loaded mode data w2 p);
        try done. by rewrite <- Heq.
    + rewrite !predict_unloaded; try done. by rewrite <- Heq.
  - by rewrite !predict_invalid.
Qed.

Lemma predict_keeps_store mode data w :
  immutable pipeline_predict (models w) →
  models (snd (predict pipeline_predict mode data w)) = models w.
Proof.
  intros Him. destruct (decide (mode ∈ ["sale"; "rent"])) as [Hm|Hm].
  - destruct (models w !! mode) as [p|] eqn:Hw.
    + rewrite (predict_loaded mode data w p) by done. simpl.
      rewrite (Him mode p _ Hw). by apply insert_id.
    + by rewrite predict_unloaded.
  - by rewrite predict_invalid.
Qed.

Lemma run_requests_keeps_store requests w :
  immutable pipeline_predict (models w) →
  models (run_requests pipeline_predict requests w) = models w.
Proof.
  revert w. induction requests as [|[mode data] rest IH]; intros w Him; [done|].
  simpl. rewrite IH; rewrite predict_keeps_store; done.
Qed.

End ServiceFacts.

(** ** The prediction dispatcher *)

Section Dispatcher.

Context {Pipeline : Type}.
Variable pipeline_predict : Pipeline → DataFrame → Outcome * Pipeline.

Implicit Types (w : World Pipeline) (p : Pipeline) (data : PropertyData).

(** C1, as amended.  For a record the validator produced and a mode of
    sale and rent under which the store holds a pipeline, [predict]
    invokes that pipeline exactly once, on a table of one row whose
    column names are the declared field names and whose cells are the
    record's values; and whenever that invocation returns an array with
    a first element, [predict] returns the response made of the
    requested mode and that element as a float. *)
Theorem predict_invokes_once_then_answers lax body data mode w p :
  validate lax body = inr data →
  mode ∈ ["sale"; "rent"] →
  models w !! mode = Some p →
  let df := pd_DataFrame [dict data] in
  columns df = field_names PropertyData_fields
  ∧ columns df = map fst data
  ∧ rows df = [map snd data]
  ∧ calls (snd (predict pipeline_predict mode data w))
    = (calls w ++ [(p, df)])%list
  ∧ ∀ x rest p',
      pipeline_predict p df = (Returns (x :: rest), p') →
      fst (predict pipeline_predict mode data w)
      = inr (mkResponse mode (py_float x)).
Proof.
  intros Hv Hm Hw df. subst df.
  rewrite (predict_loaded pipeline_predict mode data w p Hm Hw).
  rewrite (validated_table lax body data Hv). simpl.
  rewrite (validate_names lax body data Hv).
  repeat split. intros x rest p' Hout. by rewrite Hout.
Qed.

(** C2.  A mode other than sale and rent gets the invalid-mode error,
    status 400, for every record and whatever the store holds; the
    process is left as it was. *)
Theorem predict_rejects_unknown_mode mode data w :
  mode ≠ "sale" → mode ≠ "rent" →
  predict pipeline_predict mode data w
  = (inl (mkHTTPException 400 "Mode must be 'sale' or 'rent'"), w).
Proof.
  intros Hs Hr. apply predict_invalid.
  rewrite valid_mode_cases. tauto.
Qed.

(** C3.  A mode of sale and rent without an entry in the store gets
    the model-unavailable error, status 500, for every record; that
    error is not the invalid-mode error. *)
Theorem predict_reports_unloaded_model mode data w :
  mode ∈ ["sale"; "rent"] →
  models w !! mode = None →
  fst (predict pipeline_predict mode data w)
  = inl (mkHTTPException 500 ("Model for " +:+ mode +:+ " not loaded"))
  ∧ status_code (mkHTTPException 500 ("Model for " +:+ mode +:+ " not loaded"))
    = 500%Z
  ∧ mkHTTPException 500 ("Model for " +:+ mode +:+ " not loaded")
    ≠ mkHTTPException 400 "Mode must be 'sale' or 'rent'".
Proof.
  intros Hm Hw. rewrite predict_unloaded by done. by repeat split.
Qed.

(** C4.  When the invocation of a loaded pipeline raises, [predict]
    answers with status 500 and the text of the exception as detail,
    for every record. *)
Theorem predict_catches_pipeline_failure mode data w p e p' :
  mode ∈ ["sale"; "rent"] →
  models w !! mode = Some p →
  pipeline_predict p (pd_DataFrame [dict data]) = (Raises e, p') →
  fst (predict pipeline_predict mode data w)
  = inl (mkHTTPException 500 (str e)).
Proof.
  intros Hm Hw Hout. rewrite (predict_loaded pipeline_predict mode data w p Hm Hw).
  simpl. by rewrite Hout.
Qed.

(** C9.  With a store none of whose objects a call changes, a call of
    [predict] and a later call with the same mode and record, any
    requests having been served in between, give the same answer: the
    same response or the same error. *)
Theorem predict_deterministic mode data w between :
  immutable pipeline_predict (models w) →
  fst (predict pipeline_predict mode data
         (run_requests pipeline_predict between
            (snd (predict pipeline_predict mode data w))))
  = fst (predict pipeline_predict mode data w).
Proof.
  intros Him. apply predict_answer_store.
  rewrite run_requests_keeps_store; rewrite predict_keeps_store; done.
Qed.

End Dispatcher.

(** ** The request validator *)

Section Validator.

Variable lax : Coercions.

Lemma schema_defaults_all :
  Forall (fun d => ∀ x, fdefault d = Some x →
                        has_type (ftype d) x = true ∧ x ≠ VNone)
    PropertyData_fields.
Proof.
  unfold PropertyData_fields.
  repeat (apply Forall_cons; split; [intros x [= <-]; by split |]).
  apply Forall_nil_2.
Qed.

Lemma schema_defaults d x :
  d ∈ PropertyData_fields → fdefault d = Some x →
  has_type (ftype d) x = true ∧ x ≠ VNone.
Proof.
  intros Hd. exact (proj1 (Forall_forall _ _) schema_defaults_all d Hd x).
Qed.

Lemma has_type_none t :
  has_type t VNone = true → ∃ t', t = TOptional t'.
Proof. destruct t; try discriminate. by eexists. Qed.

Lemma validate_fields_ext schema (body1 body2 : Payload) :
  (∀ k, k ∈ field_names schema → body1 !! k = body2 !! k) →
  validate_fields lax schema body1 = validate_fields lax schema body2.
Proof.
  unfold field_names. induction schema as [|d schema IH]; intros Heq; [done|].
  simpl. unfold validate_field. rewrite (Heq (fname d)) by (rewrite fmap_cons; left).
  rewrite IH; [done|]. intros k Hk. apply Heq. rewrite fmap_cons. by right.
Qed.

Lemma validated_default body data d x :
  validate lax body = inr data → d ∈ PropertyData_fields →
  body !! fname d = None → fdefault d = Some x →
  dict_get data (fname d) = Some x.
Proof.
  intros Hv Hd Hb Hx.
  destruct (validate_lookup lax body data d Hv Hd) as (y & Hy & Hget).
  rewrite (validate_field_omitted lax d body x Hb Hx) in Hy. by simplify_eq.
Qed.

Lemma validated_supplied body data d v :
  validate lax body = inr data → d ∈ PropertyData_fields →
  body !! fname d = Some v →
  ∃ x, validate_value lax (ftype d) v = Some x
       ∧ dict_get data (fname d) = Some x.
Proof.
  intros Hv Hd Hb.
  destruct (validate_lookup lax body data d Hv Hd) as (y & Hy & Hget).
  unfold validate_field in Hy. rewrite Hb in Hy.
  destruct (validate_value lax (ftype d) v) as [x|]; [|done].
  exists x. by simplify_eq.
Qed.

Lemma validated_typed body data d :
  validate lax body = inr data → d ∈ PropertyData_fields →
  ∃ x, dict_get data (fname d) = Some x
       ∧ has_type (ftype d) x = true
       ∧ (x = VNone ↔ body !! fname d = Some JNull
                      ∧ ∃ t, ftype d = TOptional t).
Proof.
  intros Hv Hd.
  destruct (validate_lookup lax body data d Hv Hd) as (x & Hx & Hget).
  exists x. split; [done|]. unfold validate_field in Hx.
  destruct (body !! fname d) as [v|] eqn:Hb.
  - destruct (validate_value lax (ftype d) v) as [y|] eqn:Hy; [|done].
    simplify_eq. pose proof (validate_value_has_type lax _ _ _ Hy) as Hty.
    split; [done|]. split.
    + intros ->. apply validate_value_none in Hy as ->.
      split; [done|]. by apply has_type_none.
    + intros [[= ->] [t Ht]]. rewrite Ht in Hy. simpl in Hy. by simplify_eq.
  - destruct (fdefault d) as [y|] eqn:Hdef; [|done]. simplify_eq.
    destruct (schema_defaults d x Hd Hdef) as [Hty Hne].
    split; [done|]. split; [done|]. by intros [? _].
Qed.

Lemma fields_well_typed_validates body :
  fields_well_typed body = true → ∃ data, validate lax body = inr data.
Proof.
  intros Hwt. eexists. apply validate_fields_ok.
  apply Forall_forall. intros d Hd%list_elem_of_In.
  unfold fields_well_typed in Hwt. rewrite forallb_forall in Hwt.
  specialize (Hwt d Hd). apply orb_true_iff in Hwt as [Hs|Ho].
  - by apply validate_field_supplied.
  - apply andb_true_iff in Ho as [Hopt Hom].
    unfold is_optional in Hopt. destruct (fdefault d) as [x|] eqn:Hx; [|done].
    exists x. apply validate_field_omitted; [|done].
    by apply bool_decide_eq_true in Hom.
Qed.

Lemma required_only_well_typed body :
  required_only body = true → fields_well_typed body = true.
Proof.
  unfold required_only, fields_well_typed. rewrite !forallb_forall.
  intros H d Hd. specialize (H d Hd).
  destruct (is_optional d); rewrite H; [apply orb_true_r | done].
Qed.

Lemma required_only_omitted body d :
  required_only body = true → d ∈ PropertyData_fields →
  is_optional d = true → body !! fname d = None.
Proof.
  unfold required_only. rewrite forallb_forall.
  intros H Hd%list_elem_of_In Hopt. specialize (H d Hd). rewrite Hopt in H.
  by apply bool_decide_eq_true in H.
Qed.

Lemma undeclared_lookup (extra : Payload) k :
  undeclared extra = true → k ∈ field_names PropertyData_fields →
  extra !! k = None.
Proof.
  unfold undeclared. rewrite forallb_forall.
  intros H Hk%list_elem_of_In. specialize (H k Hk).
  by apply bool_decide_eq_true in H.
Qed.

End Validator.

Lemma flag_declared flag :
  flag ∈ amenity_flags → defaulted flag TInt (VInt 0) ∈ PropertyData_fields.
Proof.
  unfold amenity_flags. rewrite !elem_of_cons, elem_of_nil.
  intros [->|[->|[->|[->|[->|[]]]]]]; in_schema.
Qed.

(** C5.  A body that supplies every required field with a value of its
    primitive type and leaves out every optional field validates, and the
    record has floor 1.0, floorCount 1.0, buildYear 1980.0,
    buildingMaterial "brick", condition "unknown" and every amenity flag
    0. *)
Theorem validate_applies_defaults lax body :
  required_only body = true →
  ∃ data,
    validate lax body = inr data
    ∧ dict_get data "floor" = Some (VFloat 1%float)
    ∧ dict_get data "floorCount" = Some (VFloat 1%float)
    ∧ dict_get data "buildYear" = Some (VFloat 1980%float)
    ∧ dict_get data "buildingMaterial" = Some (VStr "brick")
    ∧ dict_get data "condition" = Some (VStr "unknown")
    ∧ ∀ flag, flag ∈ amenity_flags → dict_get data flag = Some (VInt 0).
Proof.
  intros Hreq.
  destruct (fields_well_typed_validates lax body
              (required_only_well_typed body Hreq)) as [data Hv].
  assert (∀ d x, d ∈ PropertyData_fields → fdefault d = Some x →
                 dict_get data (fname d) = Some x) as Hdef.
  { intros d x Hd Hx. apply (validated_default lax body data d x Hv Hd); [|done].
    apply required_only_omitted; [done..|]. unfold is_optional. by rewrite Hx. }
  exists data. split; [done|].
  split; [apply (Hdef (defaulted "floor" (TOptional TFloat) (VFloat 1%float))); [in_schema|done]|].
  split; [apply (Hdef (defaulted "floorCount" (TOptional TFloat) (VFloat 1%float))); [in_schema|done]|].
  split; [apply (Hdef (defaulted "buildYear" (TOptional TFloat) (VFloat 1980%float))); [in_schema|done]|].
  split; [apply (Hdef (defaulted "buildingMaterial" (TOptional TStr) (VStr "brick"))); [in_schema|done]|].
  split; [apply (Hdef (defaulted "condition" (TOptional TStr) (VStr "unknown"))); [in_schema|done]|].
  intros flag Hflag.
  by apply (Hdef (defaulted flag TInt (VInt 0))); [apply flag_declared|].
Qed.

(** C8, as amended.  In a record the validator produced, every declared
    field is present, in declaration order, with a value of its declared
    type; a field is null exactly when its annotation is Optional (floor,
    floorCount, buildYear, buildingMaterial, condition) and the body
    gives it an explicit null, so no other field is ever null; each
    amenity flag holds an integer, which is 0 when the body leaves the
    flag out and the supplied integer when the body gives one, whatever
    that integer is. *)
Theorem validated_record_shape lax body data :
  validate lax body = inr data →
  map fst data = field_names PropertyData_fields
  ∧ (∀ d, d ∈ PropertyData_fields →
       ∃ x, dict_get data (fname d) = Some x
            ∧ has_type (ftype d) x = true
            ∧ (x = VNone ↔ body !! fname d = Some JNull
                           ∧ ∃ t, ftype d = TOptional t))
  ∧ (∀ flag, flag ∈ amenity_flags →
       ∃ z, dict_get data flag = Some (VInt z)
            ∧ (body !! flag = None → z = 0%Z)
            ∧ (∀ n, body !! flag = Some (JInt n) → z = n)).
Proof.
  intros Hv. split; [by apply (validate_names lax body)|].
  split; [intros d Hd; exact (validated_typed lax body data d Hv Hd)|].
  intros flag Hd%flag_declared.
  destruct (validated_typed lax body data _ Hv Hd) as (x & Hget & Hty & _).
  simpl in Hget, Hty. destruct x as [|z| |]; try discriminate.
  exists z. split; [done|]. split.
  - intros Hb. pose proof (validated_default lax body data _ _ Hv Hd Hb eq_refl) as H0.
    simpl in H0. by simplify_eq.
  - intros n Hb.
    destruct (validated_supplied lax body data _ _ Hv Hd Hb) as (y & Hy & Hget').
    simpl in Hy, Hget'. by simplify_eq.
Qed.

Section Requests.

Context {Pipeline : Type}.
Variable pipeline_predict : Pipeline → DataFrame → Outcome * Pipeline.

Implicit Types (w : World Pipeline) (p : Pipeline) (data : PropertyData).

(** C7.  A body whose fields are individually well-typed is accepted,
    whatever relation its fields have to one another, and the record is
    handed to [predict]; under a loaded mode the pipeline is invoked on
    the record's row.  In particular a floor above the floor count
    reaches the record, and so the pipeline, as supplied. *)
Theorem no_cross_field_validation lax body :
  fields_well_typed body = true →
  ∃ data,
    validate lax body = inr data
    ∧ (∀ mode w,
         post_predict pipeline_predict lax mode body w
         = (Handled (fst (predict pipeline_predict mode data w)),
            snd (predict pipeline_predict mode data w)))
    ∧ (∀ mode w p,
         mode ∈ ["sale"; "rent"] → models w !! mode = Some p →
         calls (snd (post_predict pipeline_predict lax mode body w))
         = (calls w
            ++ [(p, mkDataFrame (field_names PropertyData_fields)
                      [map snd data])])%list)
    ∧ (∀ f g,
         body !! "floor" = Some (JFloat f) →
         body !! "floorCount" = Some (JFloat g) →
         PrimFloat.ltb g f = true →
         dict_get data "floor" = Some (VFloat f)
         ∧ dict_get data "floorCount" = Some (VFloat g)).
Proof.
  intros Hwt. destruct (fields_well_typed_validates lax body Hwt) as [data Hv].
  exists data. split; [done|].
  assert (∀ mode w,
            post_predict pipeline_predict lax mode body w
            = (Handled (fst (predict pipeline_predict mode data w)),
               snd (predict pipeline_predict mode data w))) as Hpost.
  { intros mode w. unfold post_predict. rewrite Hv.
    by destruct (predict pipeline_predict mode data w). }
  split; [done|]. split.
  - intros mode w p Hm Hw. rewrite Hpost. simpl.
    rewrite (predict_loaded pipeline_predict mode data w p Hm Hw). simpl.
    by rewrite (validated_table lax body data Hv).
  - intros f g Hf Hg _. split.
    + destruct (validated_supplied lax body data
                  (defaulted "floor" (TOptional TFloat) (VFloat 1%float))
                  _ Hv ltac:(in_schema) Hf) as (x & Hx & Hget).
      simpl in Hx, Hget. by simplify_eq.
    + destruct (validated_supplied lax body data
                  (defaulted "floorCount" (TOptional TFloat) (VFloat 1%float))
                  _ Hv ltac:(in_schema) Hg) as (x & Hx & Hget).
      simpl in Hx, Hget. by simplify_eq.
Qed.

(** C10.  Keys of the body that name no declared field change nothing:
    the body validates as it does without them, to the same record, the
    request is answered as without them, and the table built from a
    validated record has the declared fields as its columns and nothing
    else. *)
Theorem extra_fields_discarded lax body extra :
  undeclared extra = true →
  validate lax (extra ∪ body) = validate lax body
  ∧ (∀ mode w,
       post_predict pipeline_predict lax mode (extra ∪ body) w
       = post_predict pipeline_predict lax mode body w)
  ∧ (∀ data,
       validate lax (extra ∪ body) = inr data →
       pd_DataFrame [dict data]
       = mkDataFrame (field_names PropertyData_fields) [map snd data]
       ∧ ∀ k, k ∉ field_names PropertyData_fields → dict_get data k = None).
Proof.
  intros Hex.
  assert (validate lax (extra ∪ body) = validate lax body) as Heq.
  { apply validate_fields_ext. intros k Hk.
    apply lookup_union_r. by apply undeclared_lookup. }
  split; [done|]. split.
  - intros mode w. unfold post_predict. by rewrite Heq.
  - intros data Hv. split; [by apply (validated_table lax (extra ∪ body))|].
    intros k Hk. destruct (dict_get data k) as [x|] eqn:Hget; [|done].
    destruct (validate_lookup_inv lax _ data k x Hv Hget) as (d & Hd & <- & _).
    exfalso. apply Hk. unfold field_names. by apply list_elem_of_fmap_2.
Qed.

End Requests.

Section Startup.

Context {Pipeline : Type}.

Implicit Types (fs : gmap string (File Pipeline)).

(** C6.  Whatever combination of the two artifact files is present at
    startup, each being loadable when present, [load_models] completes,
    and the store it leaves holds under each mode the pipeline of that
    mode's file when the file exists and nothing when it does not,
    independently of the other file; it holds nothing under any other
    key. *)
Theorem load_models_per_mode fs :
  loadable fs "models/model_sale.pkl" = true →
  loadable fs "models/model_rent.pkl" = true →
  fst (load_models fs initial_world) = inr tt
  ∧ let store := models (snd (load_models fs initial_world)) in
    store !! "sale" = artifact_at fs "models/model_sale.pkl"
    ∧ store !! "rent" = artifact_at fs "models/model_rent.pkl"
    ∧ (is_Some (store !! "sale")
       ↔ os_path_exists fs "models/model_sale.pkl" = true)
    ∧ (is_Some (store !! "rent")
       ↔ os_path_exists fs "models/model_rent.pkl" = true)
    ∧ ∀ key, key ∉ ["sale"; "rent"] → store !! key = None.
Proof.
  unfold loadable, artifact_at, load_models, os_path_exists, joblib_load.
  intros Hs Hr.
  assert (∀ key : string, key ∉ ["sale"; "rent"] → "sale" ≠ key ∧ "rent" ≠ key)
    as Hother.
  { intros key Hk. rewrite valid_mode_cases in Hk. split; intros <-; tauto. }
  destruct (fs !! "models/model_sale.pkl") as [[ps|es]|]; [|done|];
    destruct (fs !! "models/model_rent.pkl") as [[pr|er]|]; try done;
    cbn -[insert lookup empty];
    (split; [reflexivity|]);
    repeat split;
    try (intros key [? ?]%Hother);
    rewrite ?lookup_insert_eq, ?lookup_insert_ne, ?lookup_empty by done;
    try done; try (by eexists); try (by intros [? [=]]).
Qed.

End Startup.

(** ** The theorems at concrete inputs *)

(** C1 as stated fails: with a sale pipeline whose invocation raises, the
    validated example record gets an error of status 500 and no
    response. *)
Lemma predict_no_response_when_pipeline_raises :
  validate strict spec_example = inr example_record
  ∧ models failing_sale !! "sale" = Some (Failing "Input contains NaN")
  ∧ fst (predict sample_predict "sale" example_record failing_sale)
    = inl (mkHTTPException 500 "Input contains NaN")
  ∧ ¬ ∃ price,
        fst (predict sample_predict "sale" example_record failing_sale)
        = inr (mkResponse "sale" price).
Proof.
  assert (fst (predict sample_predict "sale" example_record failing_sale)
          = inl (mkHTTPException 500 "Input contains NaN")) as Herr
    by (vm_compute; reflexivity).
  repeat split; try (vm_compute; reflexivity).
  intros [price Hprice]. rewrite Herr in Hprice. discriminate.
Qed.

Lemma predict_invokes_once_then_answers_witness :
  validate strict spec_example = inr example_record
  ∧ "sale" ∈ ["sale"; "rent"]
  ∧ models sale_only !! "sale" = Some (Constant 350000%float)
  ∧ fst (predict sample_predict "sale" example_record sale_only)
    = inr (mkResponse "sale" 350000%float).
Proof.
  assert (validate strict spec_example = inr example_record) as Hv
    by (vm_compute; reflexivity).
  assert ("sale" ∈ ["sale"; "rent"]) as Hm by left.
  assert (models sale_only !! "sale" = Some (Constant 350000%float)) as Hw
    by (vm_compute; reflexivity).
  split; [assumption|]. split; [assumption|]. split; [assumption|].
  destruct (predict_invokes_once_then_answers sample_predict strict
              spec_example example_record "sale" sale_only _ Hv Hm Hw)
    as (_ & _ & _ & _ & Hanswer).
  exact (Hanswer _ [] _ eq_refl).
Defined.

Lemma predict_rejects_unknown_mode_witness :
  "boat" ≠ "sale" ∧ "boat" ≠ "rent"
  ∧ predict sample_predict "boat" example_record sale_only
    = (inl (mkHTTPException 400 "Mode must be 'sale' or 'rent'"), sale_only).
Proof.
  assert ("boat" ≠ "sale") as Hs by discriminate.
  assert ("boat" ≠ "rent") as Hr by discriminate.
  split; [assumption|]. split; [assumption|].
  exact (predict_rejects_unknown_mode sample_predict "boat" example_record
           sale_only Hs Hr).
Defined.

Lemma predict_reports_unloaded_model_witness :
  "rent" ∈ ["sale"; "rent"]
  ∧ models sale_only !! "rent" = None
  ∧ fst (predict sample_predict "rent" example_record sale_only)
    = inl (mkHTTPException 500 "Model for rent not loaded").
Proof.
  assert ("rent" ∈ ["sale"; "rent"]) as Hm by (right; left).
  assert (models sale_only !! "rent" = None) as Hw by (vm_compute; reflexivity).
  split; [assumption|]. split; [assumption|].
  exact (proj1 (predict_reports_unloaded_model sample_predict "rent"
                  example_record sale_only Hm Hw)).
Defined.

Lemma predict_catches_pipeline_failure_witness :
  "sale" ∈ ["sale"; "rent"]
  ∧ models failing_sale !! "sale" = Some (Failing "Input contains NaN")
  ∧ fst (predict sample_predict "sale" example_record failing_sale)
    = inl (mkHTTPException 500 "Input contains NaN").
Proof.
  assert ("sale" ∈ ["sale"; "rent"]) as Hm by left.
  assert (models failing_sale !! "sale" = Some (Failing "Input contains NaN"))
    as Hw by (vm_compute; reflexivity).
  split; [assumption|]. split; [assumption|].
  exact (predict_catches_pipeline_failure sample_predict "sale" example_record
           failing_sale _ (mkException "ValueError" "Input contains NaN") _
           Hm Hw eq_refl).
Defined.

Lemma validate_applies_defaults_witness :
  required_only spec_example = true
  ∧ ∃ data,
      validate strict spec_example = inr data
      ∧ dict_get data "floor" = Some (VFloat 1%float)
      ∧ dict_get data "hasBalcony" = Some (VInt 0).
Proof.
  assert (required_only spec_example = true) as Hreq by (vm_compute; reflexivity).
  split; [assumption|].
  destruct (validate_applies_defaults strict spec_example Hreq)
    as (data & Hv & Hfloor & _ & _ & _ & _ & Hflags).
  exists data. split; [assumption|]. split; [assumption|].
  apply Hflags. right; left.
Defined.

Lemma load_models_per_mode_witness :
  loadable sale_file_only "models/model_sale.pkl" = true
  ∧ loadable sale_file_only "models/model_rent.pkl" = true
  ∧ models (snd (load_models sale_file_only initial_world)) !! "sale"
    = artifact_at sale_file_only "models/model_sale.pkl"
  ∧ models (snd (load_models sale_file_only initial_world)) !! "rent"
    = artifact_at sale_file_only "models/model_rent.pkl".
Proof.
  assert (loadable sale_file_only "models/model_sale.pkl" = true) as Hs
    by (vm_compute; reflexivity).
  assert (loadable sale_file_only "models/model_rent.pkl" = true) as Hr
    by (vm_compute; reflexivity).
  split; [assumption|]. split; [assumption|].
  destruct (load_models_per_mode sale_file_only Hs Hr)
    as (_ & Hsale & Hrent & _).
  split; [exact Hsale | exact Hrent].
Defined.

Lemma no_cross_field_validation_witness :
  fields_well_typed tenth_floor_of_four = true
  ∧ ∃ data,
      validate strict tenth_floor_of_four = inr data
      ∧ dict_get data "floor" = Some (VFloat 10%float)
      ∧ dict_get data "floorCount" = Some (VFloat 4%float).
Proof.
  assert (fields_well_typed tenth_floor_of_four = true) as Hwt
    by (vm_compute; reflexivity).
  split; [assumption|].
  destruct (no_cross_field_validation sample_predict strict tenth_floor_of_four Hwt)
    as (data & Hv & _ & _ & Hfloors).
  exists data. split; [assumption|].
  apply Hfloors; vm_compute; reflexivity.
Defined.

(** C8 as stated fails: an amenity flag of 5 and an explicit null for the
    floor both pass validation and reach the record. *)
Lemma amenity_flag_five_and_null_floor :
  ∃ data,
    validate strict five_parking_null_floor = inr data
    ∧ dict_get data "hasParkingSpace" = Some (VInt 5)
    ∧ dict_get data "floor" = Some VNone.
Proof. eexists. repeat split; vm_compute; reflexivity. Qed.

Lemma validated_record_shape_witness :
  validate strict spec_example = inr example_record
  ∧ map fst example_record = field_names PropertyData_fields.
Proof.
  assert (validate strict spec_example = inr example_record) as Hv
    by (vm_compute; reflexivity).
  split; [assumption|].
  exact (proj1 (validated_record_shape strict spec_example example_record Hv)).
Defined.

Lemma predict_deterministic_witness :
  immutable sample_predict (models sale_only)
  ∧ fst (predict sample_predict "sale" example_record
           (run_requests sample_predict
              [("rent", example_record); ("boat", example_record)]
              (snd (predict sample_predict "sale" example_record sale_only))))
    = fst (predict sample_predict "sale" example_record sale_only).
Proof.
  assert (immutable sample_predict (models sale_only)) as Him.
  { intros mode p df Hp. unfold sale_only, world_of in Hp. simpl in Hp.
    apply lookup_singleton_Some in Hp as [_ <-].
    reflexivity. }
  split; [assumption|].
  exact (predict_deterministic sample_predict "sale" example_record sale_only
           _ Him).
Defined.

Lemma extra_fields_discarded_witness :
  undeclared extras = true
  ∧ validate strict (extras ∪ spec_example) = validate strict spec_example.
Proof.
  assert (undeclared extras = true) as Hex by (vm_compute; reflexivity).
  split; [assumption|].
  exact (proj1 (extra_fields_discarded sample_predict strict spec_example
                  extras Hex)).
Defined.

(** ** Further behaviour, by evaluation *)

(** An empty array from the pipeline ends in the handler too: indexing it
    raises inside the [try]. *)
Example predict_on_empty_prediction :
  fst (predict sample_predict "sale" example_record
         (world_of {[ "sale" := Empty ]}))
  = inl (mkHTTPException 500 "index 0 is out of bounds for axis 0 with size 0").
Proof. vm_compute. reflexivity. Qed.

(** Without immutability the answers of two equal calls can differ. *)
Example predict_on_changing_pipeline :
  let w := world_of {[ "sale" := Drifting 1000%float ]} in
  fst (predict sample_predict "sale" example_record w)
  = inr (mkResponse "sale" 1000%float)
  ∧ fst (predict sample_predict "sale" example_record
           (snd (predict sample_predict "sale" example_record w)))
    = inr (mkResponse "sale" 1001%float).
Proof. split; vm_compute; reflexivity. Qed.

(** A file that exists and cannot be loaded stops the startup at its
    mode; the later mode is then not reached. *)
Example load_models_stops_on_unloadable_file :
  let fs : gmap string (File Sample) :=
    {[ "models/model_sale.pkl" := Unloadable (mkException "UnpicklingError" "invalid load key");
       "models/model_rent.pkl" := Artifact (Constant 2500%float) ]} in
  fst (load_models fs initial_world)
  = inl (mkException "UnpicklingError" "invalid load key")
  ∧ models (snd (load_models fs initial_world)) !! "rent" = None.
Proof. split; vm_compute; reflexivity. Qed.

(** A missing required field and an ill-typed one are both reported. *)
Example validate_reports_each_field :
  validate strict (<["rooms" := JNull]> (delete "city" spec_example))
  = inl [("city", Missing); ("rooms", TypeError)].
Proof. vm_compute. reflexivity. Qed.

(** ** More on the dispatcher and the startup *)

Section DispatcherMore.

Context {Pipeline : Type}.
Variable pipeline_predict : Pipeline → DataFrame → Outcome * Pipeline.

Implicit Types (w : World Pipeline) (p : Pipeline) (data : PropertyData).

Lemma predict_error_cases mode data w e :
  fst (predict pipeline_predict mode data w) = inl e →
  (status_code e = 400%Z ∨ status_code e = 500%Z)
  ∧ (status_code e = 400%Z ↔ mode ∉ ["sale"; "rent"])
  ∧ (status_code e = 400%Z → detail e = "Mode must be 'sale' or 'rent'").
Proof.
  intros He. destruct (decide (mode ∈ ["sale"; "rent"])) as [Hm|Hm].
  - assert (status_code e = 500%Z) as H500.
    { destruct (models w !! mode) as [p|] eqn:Hw.
      + rewrite (predict_loaded pipeline_predict mode data w p Hm Hw) in He.
        simpl in He.
        destruct (fst (pipeline_predict p (pd_DataFrame [dict data])))
          as [[|x rest]|ex]; by simplify_eq.
      + rewrite predict_unloaded in He by done. simpl in He. by simplify_eq. }
    rewrite H500. split; [by right|]. split; [|done]. split; [done|]. by intros [].
  - rewrite predict_invalid in He by done. simpl in He. simplify_eq. simpl.
    split; [by left|]. by split.
Qed.

(** X1.  An error of [predict] has status 400 or 500; it has status 400
    exactly for a mode other than sale and rent, with the fixed detail,
    and 500 in every other case. *)
Theorem predict_error_statuses mode data w e :
  fst (predict pipeline_predict mode data w) = inl e →
  (status_code e = 400%Z ∨ status_code e = 500%Z)
  ∧ (status_code e = 400%Z ↔ mode ∉ ["sale"; "rent"])
  ∧ (status_code e = 400%Z → detail e = "Mode must be 'sale' or 'rent'").
Proof. apply predict_error_cases. Qed.

(** X2.  [predict] returns a response exactly when the mode is sale or
    rent, the store holds a pipeline under it and the invocation of that
    pipeline on the record's table returns an array with a first element;
    the response then carries the mode and that element. *)
Theorem predict_response_iff mode data w r :
  fst (predict pipeline_predict mode data w) = inr r
  ↔ ∃ p x rest,
      mode ∈ ["sale"; "rent"]
      ∧ models w !! mode = Some p
      ∧ fst (pipeline_predict p (pd_DataFrame [dict data])) = Returns (x :: rest)
      ∧ r = mkResponse mode x.
Proof.
  split.
  - intros Hr. destruct (decide (mode ∈ ["sale"; "rent"])) as [Hm|Hm].
    + destruct (models w !! mode) as [p|] eqn:Hw.
      * rewrite (predict_loaded pipeline_predict mode data w p Hm Hw) in Hr.
        simpl in Hr.
        destruct (fst (pipeline_predict p (pd_DataFrame [dict data])))
          as [[|x rest]|ex] eqn:Hout; simplify_eq.
        by exists p, x, rest.
      * rewrite predict_unloaded in Hr by done. simpl in Hr. by simplify_eq.
    + rewrite predict_invalid in Hr by done. simpl in Hr. by simplify_eq.
  - intros (p & x & rest & Hm & Hw & Hout & ->).
    rewrite (predict_loaded pipeline_predict mode data w p Hm Hw). simpl.
    by rewrite Hout.
Qed.

(** X3.  [predict] leaves the process exactly as it found it when, and
    only when, it stops at one of its two guards (mode not sale or rent,
    or no pipeline under the mode); otherwise it makes one invocation,
    recorded after those made before. *)
Theorem predict_untouched_iff_guarded mode data w :
  (snd (predict pipeline_predict mode data w) = w
   ↔ mode ∉ ["sale"; "rent"] ∨ models w !! mode = None)
  ∧ (∀ p, mode ∈ ["sale"; "rent"] → models w !! mode = Some p →
       calls (snd (predict pipeline_predict mode data w))
       = (calls w ++ [(p, pd_DataFrame [dict data])])%list).
Proof.
  split.
  - destruct (decide (mode ∈ ["sale"; "rent"])) as [Hm|Hm].
    + destruct (models w !! mode) as [p|] eqn:Hw.
      * rewrite (predict_loaded pipeline_predict mode data w p Hm Hw). simpl.
        split; [|by intros [?|?]].
        intros Heq. apply (f_equal calls) in Heq. simpl in Heq.
        apply (f_equal length) in Heq. rewrite length_app in Heq. simpl in Heq. lia.
      * rewrite predict_unloaded by done. simpl. split; [by right|done].
    + rewrite predict_invalid by done. simpl. split; [by left|done].
  - intros p Hm Hw.
    by rewrite (predict_loaded pipeline_predict mode data w p Hm Hw).
Qed.

(** X4.  Whatever the pipelines do, [predict] prints nothing, keeps the
    set of loaded modes, and leaves every object stored under another
    mode as it was. *)
Theorem predict_frame mode data w :
  stdout (snd (predict pipeline_predict mode data w)) = stdout w
  ∧ dom (models (snd (predict pipeline_predict mode data w))) = dom (models w)
  ∧ ∀ other, other ≠ mode →
      models (snd (predict pipeline_predict mode data w)) !! other
      = models w !! other.
Proof.
  destruct (decide (mode ∈ ["sale"; "rent"])) as [Hm|Hm].
  - destruct (models w !! mode) as [p|] eqn:Hw.
    + rewrite (predict_loaded pipeline_predict mode data w p Hm Hw). simpl.
      split; [done|]. split.
      * rewrite dom_insert_L. apply (elem_of_dom_2 (models w)) in Hw.
        apply subseteq_union_1_L. by apply singleton_subseteq_l.
      * intros other Hne. by rewrite lookup_insert_ne.
    + by rewrite predict_unloaded.
  - by rewrite predict_invalid.
Qed.

(** X5.  When the invocation returns an empty array, [predict] answers
    with status 500 and the text of the indexing error. *)
Theorem predict_empty_prediction mode data w p :
  mode ∈ ["sale"; "rent"] →
  models w !! mode = Some p →
  fst (pipeline_predict p (pd_DataFrame [dict data])) = Returns [] →
  fst (predict pipeline_predict mode data w)
  = inl (mkHTTPException 500 "index 0 is out of bounds for axis 0 with size 0").
Proof.
  intros Hm Hw Hout.
  rewrite (predict_loaded pipeline_predict mode data w p Hm Hw). simpl.
  by rewrite Hout.
Qed.

End DispatcherMore.

Section StartupMore.

Context {Pipeline : Type}.
Variable pipeline_predict : Pipeline → DataFrame → Outcome * Pipeline.

Implicit Types (fs : gmap string (File Pipeline)) (w : World Pipeline).

(** With loadable files, [load_models] in full. *)
Lemma load_models_loadable fs w :
  loadable fs "models/model_sale.pkl" = true →
  loadable fs "models/model_rent.pkl" = true →
  load_models fs w
  = (inr tt,
     mkWorld
       (let store :=
          match artifact_at fs "models/model_sale.pkl" with
          | Some p => <["sale" := p]> (models w)
          | None => models w
          end in
        match artifact_at fs "models/model_rent.pkl" with
        | Some p => <["rent" := p]> store
        | None => store
        end)
       ((stdout w
         ++ (if os_path_exists fs "models/model_sale.pkl"
             then ["Sale model loaded."] else []))
        ++ (if os_path_exists fs "models/model_rent.pkl"
            then ["Rent model loaded."] else []))%list
       (calls w)).
Proof.
  unfold loadable, artifact_at, load_models, os_path_exists, joblib_load.
  intros Hs Hr.
  destruct (fs !! "models/model_sale.pkl") as [[ps|es]|]; [|done|];
    destruct (fs !! "models/model_rent.pkl") as [[pr|er]|]; try done;
    cbn -[insert lookup empty]; rewrite ?app_nil_r, <- ?app_assoc;
    try reflexivity; by destruct w.
Qed.

(** X6.  Run on any store, with loadable files, [load_models] completes
    and puts under each of sale and rent the pipeline of the mode's file
    when the file exists, keeping what the store held under the mode when
    it does not; entries under other keys stay, no pipeline is invoked,
    and one line is printed per file loaded, sale first. *)
Theorem load_models_over_store fs w :
  loadable fs "models/model_sale.pkl" = true →
  loadable fs "models/model_rent.pkl" = true →
  fst (load_models fs w) = inr tt
  ∧ let w' := snd (load_models fs w) in
    models w' !! "sale"
    = match artifact_at fs "models/model_sale.pkl" with
      | Some p => Some p
      | None => models w !! "sale"
      end
    ∧ models w' !! "rent"
      = match artifact_at fs "models/model_rent.pkl" with
        | Some p => Some p
        | None => models w !! "rent"
        end
    ∧ (∀ key, key ∉ ["sale"; "rent"] → models w' !! key = models w !! key)
    ∧ calls w' = calls w
    ∧ stdout w'
      = ((stdout w
          ++ (if os_path_exists fs "models/model_sale.pkl"
              then ["Sale model loaded."] else []))
         ++ (if os_path_exists fs "models/model_rent.pkl"
             then ["Rent model loaded."] else []))%list.
Proof.
  intros Hs Hr. rewrite (load_models_loadable fs w Hs Hr).
  split; [done|]. cbn -[insert lookup empty].
  assert (∀ key : string, key ∉ ["sale"; "rent"] → "sale" ≠ key ∧ "rent" ≠ key)
    as Hother.
  { intros key Hk. rewrite valid_mode_cases in Hk. split; intros <-; tauto. }
  destruct (artifact_at fs "models/model_sale.pkl") as [ps|],
           (artifact_at fs "models/model_rent.pkl") as [pr|];
    repeat split; try (intros key [? ?]%Hother);
    by rewrite ?lookup_insert_eq, ?lookup_insert_ne, ?lookup_insert_eq by done.
Qed.

(** X7.  A sale file that exists and cannot be loaded makes [load_models]
    raise the loader's exception with the process untouched, so the rent
    file is never looked at.  A rent file that cannot be loaded makes it
    raise after the sale pipeline, if its file exists, has been stored
    and announced. *)
Theorem load_models_raises fs w e :
  (fs !! "models/model_sale.pkl" = Some (Unloadable e) →
   load_models fs w = (inl e, w))
  ∧ (loadable fs "models/model_sale.pkl" = true →
     fs !! "models/model_rent.pkl" = Some (Unloadable e) →
     fst (load_models fs w) = inl e
     ∧ models (snd (load_models fs w))
       = match artifact_at fs "models/model_sale.pkl" with
         | Some p => <["sale" := p]> (models w)
         | None => models w
         end
     ∧ stdout (snd (load_models fs w))
       = (stdout w
          ++ (if os_path_exists fs "models/model_sale.pkl"
              then ["Sale model loaded."] else []))%list).
Proof.
  unfold loadable, artifact_at, load_models, os_path_exists, joblib_load.
  split.
  - intros ->. reflexivity.
  - intros Hs ->.
    destruct (fs !! "models/model_sale.pkl") as [[ps|es]|]; [|done|];
      cbn -[insert lookup empty]; rewrite ?app_nil_r; by destruct w.
Qed.

(** X8.  With loadable files, running [load_models] a second time leaves
    the store as the first run left it. *)
Theorem load_models_idempotent fs w :
  loadable fs "models/model_sale.pkl" = true →
  loadable fs "models/model_rent.pkl" = true →
  models (snd (load_models fs (snd (load_models fs w))))
  = models (snd (load_models fs w)).
Proof.
  intros Hs Hr. rewrite !(load_models_loadable fs _ Hs Hr).
  cbn -[insert lookup empty].
  destruct (artifact_at fs "models/model_sale.pkl") as [ps|],
           (artifact_at fs "models/model_rent.pkl") as [pr|]; try done;
    apply map_eq; intros key;
    destruct (decide (key = "rent")) as [Hkr|];
    destruct (decide (key = "sale")) as [Hks|]; subst; try done;
    repeat first [rewrite lookup_insert_eq | rewrite lookup_insert_ne by done];
    done.
Qed.

(** X9.  After a startup with loadable files, a request for a mode of
    sale and rent is refused as not loaded when the mode's artifact file
    is missing, and otherwise invokes the pipeline of that file, once, as
    the first invocation of the process, and answers with the first
    element of what it returns. *)
Theorem startup_then_predict fs mode data :
  loadable fs "models/model_sale.pkl" = true →
  loadable fs "models/model_rent.pkl" = true →
  mode ∈ ["sale"; "rent"] →
  let w := snd (load_models fs initial_world) in
  (fs !! model_path mode = None →
   fst (predict pipeline_predict mode data w)
   = inl (mkHTTPException 500 ("Model for " +:+ mode +:+ " not loaded")))
  ∧ (∀ p, fs !! model_path mode = Some (Artifact p) →
       calls (snd (predict pipeline_predict mode data w))
       = [(p, pd_DataFrame [dict data])]
       ∧ ∀ x rest,
           fst (pipeline_predict p (pd_DataFrame [dict data]))
           = Returns (x :: rest) →
           fst (predict pipeline_predict mode data w)
           = inr (mkResponse mode x)).
Proof.
  intros Hs Hr Hm w.
  assert (models w !! mode = artifact_at fs (model_path mode)) as Hstore.
  { subst w. rewrite (load_models_loadable fs _ Hs Hr).
    cbn -[insert lookup empty].
    apply valid_mode_cases in Hm as [-> | ->];
      change (model_path "sale") with "models/model_sale.pkl";
      change (model_path "rent") with "models/model_rent.pkl";
      destruct (artifact_at fs "models/model_sale.pkl") as [ps|],
               (artifact_at fs "models/model_rent.pkl") as [pr|];
      by rewrite ?lookup_insert_eq, ?lookup_insert_ne, ?lookup_insert_eq,
           ?lookup_empty by done. }
  assert (calls w = []) as Hcalls.
  { subst w. by rewrite (load_models_loadable fs _ Hs Hr). }
  unfold artifact_at in Hstore. split.
  - intros Hnone. rewrite Hnone in Hstore. by rewrite predict_unloaded.
  - intros p Hp. rewrite Hp in Hstore.
    rewrite (predict_loaded pipeline_predict mode data w p Hm Hstore). simpl.
    rewrite Hcalls. split; [done|]. intros x rest Hout. by rewrite Hout.
Qed.

End StartupMore.

(** ** More on the request validator *)

Section ValidatorMore.

Variable lax : Coercions.

Lemma validate_fields_failing schema body :
  match validate_fields lax schema body with
  | inl errs =>
      errs ≠ []
      ∧ errs = omap (fun d => match validate_field lax d body with
                              | inl e => Some e
                              | inr _ => None
                              end) schema
  | inr data =>
      omap (fun d => match validate_field lax d body with
                     | inl e => Some e
                     | inr _ => None
                     end) schema = []
  end.
Proof.
  induction schema as [|d schema IH]; simpl; [done|].
  destruct (validate_field lax d body) as [e|x],
           (validate_fields lax schema body) as [es|xs]; simpl.
  - destruct IH as [_ IH]. split; [done|]. f_equal. exact IH.
  - split; [done|]. f_equal. symmetry. exact IH.
  - exact IH.
  - exact IH.
Qed.

Lemma validate_fields_error_elem schema body errs e :
  validate_fields lax schema body = inl errs →
  e ∈ errs ↔ ∃ d, d ∈ schema ∧ validate_field lax d body = inl e.
Proof.
  intros Hv. pose proof (validate_fields_failing schema body) as H.
  rewrite Hv in H. destruct H as [_ ->].
  rewrite list_elem_of_omap. split.
  - intros (d & Hd & He). exists d. split; [done|].
    by destruct (validate_field lax d body); simplify_eq.
  - intros (d & Hd & He). exists d. split; [done|]. by rewrite He.
Qed.

Lemma validate_fields_fails_on schema body d e :
  d ∈ schema → validate_field lax d body = inl e →
  ∃ errs, validate_fields lax schema body = inl errs ∧ e ∈ errs.
Proof.
  intros Hd He. destruct (validate_fields lax schema body) as [errs|data] eqn:Hv.
  - exists errs. split; [done|].
    apply (validate_fields_error_elem schema body errs e Hv). by exists d.
  - apply validate_fields_inr in Hv as [Hall _].
    rewrite Forall_forall in Hall. destruct (Hall d Hd) as [x Hx].
    rewrite He in Hx. discriminate.
Qed.

Lemma validate_fields_reports schema body :
  match validate_fields lax schema body with
  | inl errs =>
      errs ≠ []
      ∧ errs = omap (fun d => match validate_field lax d body with
                              | inl e => Some e
                              | inr _ => None
                              end) schema
  | inr data =>
      ∀ d, d ∈ schema → ∃ x, validate_field lax d body = inr x
  end.
Proof.
  pose proof (validate_fields_failing schema body) as H.
  destruct (validate_fields lax schema body) as [errs|data] eqn:Hv; [done|].
  apply validate_fields_inr in Hv as [Hall _].
  by rewrite Forall_forall in Hall.
Qed.

Lemma validate_error_elem body errs e :
  validate lax body = inl errs →
  e ∈ errs ↔ ∃ d, d ∈ PropertyData_fields ∧ validate_field lax d body = inl e.
Proof. exact (validate_fields_error_elem _ body errs e). Qed.

Lemma validate_fails_on body d e :
  d ∈ PropertyData_fields → validate_field lax d body = inl e →
  ∃ errs, validate lax body = inl errs ∧ e ∈ errs.
Proof. exact (validate_fields_fails_on _ body d e). Qed.

(** X10.  A failed validation reports the offending fields, every one of
    them once and no other, in declaration order; a successful one has no
    offending field. *)
Theorem validate_reports_exactly body :
  match validate lax body with
  | inl errs =>
      errs ≠ []
      ∧ errs = omap (fun d => match validate_field lax d body with
                              | inl e => Some e
                              | inr _ => None
                              end) PropertyData_fields
  | inr data =>
      ∀ d, d ∈ PropertyData_fields → ∃ x, validate_field lax d body = inr x
  end.
Proof. exact (validate_fields_reports _ body). Qed.

(** X11.  A field is reported as missing exactly when it is declared
    without a default and the body has no value under its name. *)
Theorem validate_missing_iff body name :
  (∃ errs, validate lax body = inl errs ∧ (name, Missing) ∈ errs)
  ↔ ∃ d, d ∈ PropertyData_fields ∧ fname d = name
         ∧ fdefault d = None ∧ body !! name = None.
Proof.
  split.
  - intros (errs & Hv & He).
    apply (validate_error_elem body errs _ Hv) in He as (d & Hd & Hf).
    exists d. split; [done|]. unfold validate_field in Hf.
    destruct (body !! fname d) as [v|] eqn:Hb.
    + destruct (validate_value lax (ftype d) v); simplify_eq.
    + destruct (fdefault d) eqn:Hdef; simplify_eq. by rewrite Hb.
  - intros (d & Hd & <- & Hdef & Hb).
    apply (validate_fails_on body d); [done|].
    unfold validate_field. by rewrite Hb, Hdef.
Qed.

(** X12.  An explicit null for a field whose annotation is not Optional
    is refused as a type error, whatever the library converts: so also
    for an amenity flag, although it has a default. *)
Theorem validate_refuses_null body d :
  d ∈ PropertyData_fields →
  (∀ t, ftype d ≠ TOptional t) →
  body !! fname d = Some JNull →
  ∃ errs, validate lax body = inl errs ∧ (fname d, TypeError) ∈ errs.
Proof.
  intros Hd Hopt Hb. apply (validate_fails_on body d); [done|].
  unfold validate_field. rewrite Hb.
  destruct (ftype d) as [| | |t] eqn:Ht; simpl; try done.
  by destruct (Hopt t).
Qed.

(** X13.  In a validated record a supplied value is never replaced by the
    default: a string, a float and an integer given to a field of that
    type arrive unchanged, an integer given to a float field arrives
    converted to the float of the same value, and a null given to an
    Optional field arrives as null. *)
Theorem validate_carries_supplied body data d :
  validate lax body = inr data →
  d ∈ PropertyData_fields →
  (∀ s, ftype d = TStr ∨ ftype d = TOptional TStr →
        body !! fname d = Some (JStr s) →
        dict_get data (fname d) = Some (VStr s))
  ∧ (∀ f, ftype d = TFloat ∨ ftype d = TOptional TFloat →
          body !! fname d = Some (JFloat f) →
          dict_get data (fname d) = Some (VFloat f))
  ∧ (∀ z, ftype d = TFloat ∨ ftype d = TOptional TFloat →
          body !! fname d = Some (JInt z) →
          ∃ f, float_of_int z = Some f
               ∧ dict_get data (fname d) = Some (VFloat f))
  ∧ (∀ z, ftype d = TInt →
          body !! fname d = Some (JInt z) →
          dict_get data (fname d) = Some (VInt z))
  ∧ (∀ t, ftype d = TOptional t →
          body !! fname d = Some JNull →
          dict_get data (fname d) = Some VNone).
Proof.
  intros Hv Hd.
  assert (∀ v, body !! fname d = Some v →
               ∃ x, validate_value lax (ftype d) v = Some x
                    ∧ dict_get data (fname d) = Some x) as Hsup
    by (intros v; apply validated_supplied; done).
  repeat split.
  - intros s Ht Hb. destruct (Hsup _ Hb) as (x & Hx & ->).
    destruct Ht as [Ht|Ht]; rewrite Ht in Hx; simpl in Hx; by simplify_eq.
  - intros f Ht Hb. destruct (Hsup _ Hb) as (x & Hx & ->).
    destruct Ht as [Ht|Ht]; rewrite Ht in Hx; simpl in Hx; by simplify_eq.
  - intros z Ht Hb. destruct (Hsup _ Hb) as (x & Hx & ->).
    destruct Ht as [Ht|Ht]; rewrite Ht in Hx; simpl in Hx;
      destruct (float_of_int z) as [f|]; simpl in Hx; simplify_eq;
      by exists f.
  - intros z Ht Hb. destruct (Hsup _ Hb) as (x & Hx & ->).
    rewrite Ht in Hx; simpl in Hx; by simplify_eq.
  - intros t Ht Hb. destruct (Hsup _ Hb) as (x & Hx & ->).
    rewrite Ht in Hx; simpl in Hx; by simplify_eq.
Qed.

End ValidatorMore.

(** ** The table and the trained columns *)

Lemma field_named_spec name d :
  field_named name = Some d → d ∈ PropertyData_fields ∧ fname d = name.
Proof.
  unfold field_named. intros H. apply find_some in H as [Hin Hname].
  split; [by apply list_elem_of_In|]. by apply bool_decide_eq_true in Hname.
Qed.

Lemma has_type_base t v :
  has_type t v = true →
  v = VNone
  ∨ match base_type t with
    | TStr => is_string v = true
    | _ => is_number v = true
    end.
Proof.
  induction t as [| | |t IH]; destruct v; simpl; try discriminate; auto.
Qed.

Lemma numerical_declared name :
  name ∈ NUMERICAL_FEATURES →
  ∃ d, field_named name = Some d ∧ base_type (ftype d) ≠ TStr.
Proof.
  revert name. apply Forall_forall. unfold NUMERICAL_FEATURES.
  repeat (apply Forall_cons; split;
          [eexists; split; [vm_compute; reflexivity | discriminate] |]).
  apply Forall_nil_2.
Qed.

Lemma categorical_declared name :
  name ∈ CATEGORICAL_FEATURES →
  ∃ d, field_named name = Some d ∧ base_type (ftype d) = TStr.
Proof.
  revert name. apply Forall_forall. unfold CATEGORICAL_FEATURES.
  repeat (apply Forall_cons; split;
          [eexists; split; [vm_compute; reflexivity | reflexivity] |]).
  apply Forall_nil_2.
Qed.

Lemma trained_columns_are_fields name :
  name ∈ field_names PropertyData_fields
  ↔ name ∈ (NUMERICAL_FEATURES ++ CATEGORICAL_FEATURES)%list.
Proof.
  split; revert name; apply Forall_forall;
    apply (bool_decide_unpack _); by vm_compute.
Qed.

(** X14.  The table [predict] builds from a validated record has exactly
    the columns the trained pipeline's preprocessor selects, each once:
    the numerical features, whose cells are numbers, and the categorical
    ones, whose cells are strings, but for a null under a field declared
    Optional. *)
Theorem table_matches_trained_columns lax body data :
  validate lax body = inr data →
  let df := pd_DataFrame [dict data] in
  NoDup (columns df)
  ∧ (∀ name, name ∈ columns df
             ↔ name ∈ (NUMERICAL_FEATURES ++ CATEGORICAL_FEATURES)%list)
  ∧ (∀ name, name ∈ NUMERICAL_FEATURES →
       ∃ v, dict_get data name = Some v
            ∧ (is_number v = true ∨ v = VNone))
  ∧ (∀ name, name ∈ CATEGORICAL_FEATURES →
       ∃ v, dict_get data name = Some v
            ∧ (is_string v = true ∨ v = VNone)).
Proof.
  intros Hv df. subst df. rewrite (validated_table lax body data Hv). simpl.
  split; [apply fields_nodup|]. split; [apply trained_columns_are_fields|].
  split.
  - intros name (d & [Hd <-]%field_named_spec & Hbase)%numerical_declared.
    destruct (validated_typed lax body data d Hv Hd) as (v & Hget & Hty & _).
    exists v. split; [done|].
    apply has_type_base in Hty as [->|Hty]; [by right|left].
    by destruct (base_type (ftype d)).
  - intros name (d & [Hd <-]%field_named_spec & Hbase)%categorical_declared.
    destruct (validated_typed lax body data d Hv Hd) as (v & Hget & Hty & _).
    exists v. split; [done|].
    apply has_type_base in Hty as [->|Hty]; [by right|left].
    by rewrite Hbase in Hty.
Qed.

(** X15.  Whatever names the encoder gives, the list [get_feature_names]
    returns starts with the numerical features of training without the
    five amenity flags, which training has last among them; so it is five
    names shorter than the numerical features of training followed by the
    encoder's names. *)
Theorem get_feature_names_lacks_flags
  (get_feature_names_out : list string → list string) :
  NUMERICAL_FEATURES = (inspect_NUMERICAL_FEATURES ++ amenity_flags)%list
  ∧ get_feature_names get_feature_names_out
    = (inspect_NUMERICAL_FEATURES
       ++ get_feature_names_out CATEGORICAL_FEATURES)%list
  ∧ (length (get_feature_names get_feature_names_out) + 5)%nat
    = length (NUMERICAL_FEATURES
              ++ get_feature_names_out CATEGORICAL_FEATURES)%list
  ∧ ∀ flag, flag ∈ amenity_flags →
      flag ∈ get_feature_names get_feature_names_out
      → flag ∈ get_feature_names_out CATEGORICAL_FEATURES.
Proof.
  split; [reflexivity|]. split; [reflexivity|]. split.
  - unfold get_feature_names. rewrite !length_app. simpl. lia.
  - unfold get_feature_names. intros flag Hflag [Hin|Hin]%elem_of_app; [|done].
    assert (Forall (fun flag => flag ∉ inspect_NUMERICAL_FEATURES) amenity_flags)
      as Hout by (apply (bool_decide_unpack _); by vm_compute).
    rewrite Forall_forall in Hout. by destruct (Hout flag Hflag).
Qed.

(** ** The front end and the service *)

Section FrontendFacts.

Import Frontend.

Lemma payload_keys_nodup f : NoDup (payload_items f).*1.
Proof. apply (bool_decide_unpack _). by vm_compute. Qed.

Lemma payload_lookup f k v :
  (k, v) ∈ payload_items f → payload f !! k = Some v.
Proof. apply elem_of_list_to_map_1, payload_keys_nodup. Qed.




Lemma small_ints_ordered a b fa fb :
  (0 ≤ a ≤ 50)%Z → (0 ≤ b ≤ 50)%Z → (a ≤ b)%Z →
  float_of_int a = Some fa → float_of_int b = Some fb →
  (fa <=? fb)%float = true.
Proof.
  intros Ha Hb Hab Hfa Hfb.
  assert (forallb (fun a =>
            forallb (fun b =>
              match float_of_int a, float_of_int b with
              | Some x, Some y => implb (a <=? b)%Z (x <=? y)%float
              | _, _ => false
              end) (seqZ 0 51)) (seqZ 0 51) = true) as Hall
    by (vm_compute; reflexivity).
  rewrite forallb_forall in Hall.
  assert (In a (seqZ 0 51)) as Hina by (apply list_elem_of_In, elem_of_seqZ; lia).
  specialize (Hall a Hina). rewrite forallb_forall in Hall.
  assert (In b (seqZ 0 51)) as Hinb by (apply list_elem_of_In, elem_of_seqZ; lia).
  specialize (Hall b Hinb). rewrite Hfa, Hfb in Hall.
  apply Z.leb_le in Hab. by rewrite Hab in Hall.
Qed.

(** The conjuncts of [within_widgets] the proofs below use. *)
Lemma within_widgets_bounds current_year f :
  within_widgets current_year f = true →
  mode f ∈ mode_options
  ∧ (1 ≤ rooms f ≤ 10)%Z
  ∧ (1800 ≤ build_year f ≤ current_year + 5)%Z
  ∧ (0 ≤ floor f ≤ 50)%Z
  ∧ (1 ≤ floor_count f ≤ 50)%Z
  ∧ (0 ≤ poi_count f)%Z.
Proof.
  unfold within_widgets. rewrite !andb_true_iff, !Z.leb_le.
  rewrite !bool_decide_eq_true. intuition lia.
Qed.

Ltac in_items :=
  unfold payload_items; repeat first [by left | right].

Ltac in_payload := apply payload_lookup; in_items.

Variable lax : Coercions.


End FrontendFacts.

Ltac in_items :=
  unfold Frontend.payload_items; repeat first [by left | right].

Ltac in_payload := apply payload_lookup; in_items.

Section FrontendService.

Import Frontend.

Context {Pipeline : Type}.
Variable pipeline_predict : Pipeline → DataFrame → Outcome * Pipeline.
Variable lax : Coercions.




(** X17.  Submitting the form either shows the logical error, which
    happens exactly when the floor is above the floor count, or posts the
    payload to the route of the selected mode; the record the service
    validates from a posted body then has a floor that is at most its
    floor count. *)
Theorem form_floors_ordered current_year f :
  within_widgets current_year f = true →
  match on_submit f with
  | ShowError _ => (floor_count f < floor f)%Z
  | PostRequest m body =>
      m = mode f ∧ body = payload f ∧ (floor f ≤ floor_count f)%Z
      ∧ ∀ data, validate lax body = inr data →
          ∃ a b, dict_get data "floor" = Some (VFloat a)
                 ∧ dict_get data "floorCount" = Some (VFloat b)
                 ∧ (a <=? b)%float = true
  end.
Proof.
  intros (_ & _ & _ & Hfloor & Hcount & _)%within_widgets_bounds.
  unfold on_submit. destruct (floor f >? floor_count f)%Z eqn:Hgt.
  - apply Z.gtb_lt in Hgt. lia.
  - assert (floor f ≤ floor_count f)%Z as Hle
      by (rewrite Z.gtb_ltb in Hgt; apply Z.ltb_ge in Hgt; lia).
    split; [done|]. split; [done|]. split; [done|]. intros data Hv.
    destruct (validated_supplied lax (payload f) data
                (defaulted "floor" (TOptional TFloat) (VFloat 1%float))
                _ Hv ltac:(in_schema) ltac:(in_payload)) as (x & Hx & Hget).
    destruct (validated_supplied lax (payload f) data
                (defaulted "floorCount" (TOptional TFloat) (VFloat 1%float))
                _ Hv ltac:(in_schema) ltac:(in_payload)) as (y & Hy & Hget').
    clear Hv.
    cbn [ftype defaulted validate_value fname] in Hx, Hy, Hget, Hget'.
    destruct (float_of_int (floor f)) as [a|] eqn:Ha; [|discriminate Hx].
    destruct (float_of_int (floor_count f)) as [b|] eqn:Hb; [|discriminate Hy].
    simpl in Hx, Hy. injection Hx as <-. injection Hy as <-.
    exists a, b. split; [exact Hget|]. split; [exact Hget'|].
    apply (small_ints_ordered (floor f) (floor_count f)); (assumption || lia).
Qed.


End FrontendService.

(** ** Sequences of requests *)

Section RequestSequences.

Context {Pipeline : Type}.
Variable pipeline_predict : Pipeline → DataFrame → Outcome * Pipeline.

Implicit Types (w : World Pipeline).

Lemma predict_keeps_dom mode data w :
  dom (models (snd (predict pipeline_predict mode data w))) = dom (models w)
  ∧ stdout (snd (predict pipeline_predict mode data w)) = stdout w.
Proof.
  destruct (decide (mode ∈ ["sale"; "rent"])) as [Hm|Hm].
  - destruct (models w !! mode) as [p|] eqn:Hw.
    + rewrite (predict_loaded pipeline_predict mode data w p Hm Hw). simpl.
      split; [|done]. rewrite dom_insert_L.
      apply (elem_of_dom_2 (models w)) in Hw.
      apply subseteq_union_1_L. by apply singleton_subseteq_l.
    + by rewrite predict_unloaded.
  - by rewrite predict_invalid.
Qed.

Lemma predict_calls_grow mode data w :
  ∃ new, calls (snd (predict pipeline_predict mode data w))
         = (calls w ++ new)%list
         ∧ (length new ≤ 1)%nat.
Proof.
  destruct (decide (mode ∈ ["sale"; "rent"])) as [Hm|Hm].
  - destruct (models w !! mode) as [p|] eqn:Hw.
    + rewrite (predict_loaded pipeline_predict mode data w p Hm Hw). simpl.
      eexists. split; [reflexivity|]. simpl. lia.
    + rewrite predict_unloaded by done. exists []. simpl.
      rewrite app_nil_r. split; [done | lia].
  - rewrite predict_invalid by done. exists []. simpl.
    rewrite app_nil_r. split; [done | lia].
Qed.

(** X19.  No sequence of requests loads or unloads a pipeline or prints:
    the set of loaded modes stays as the startup left it, so a mode of
    sale and rent that has no pipeline is refused as not loaded after any
    requests; and each request adds at most one invocation to those made
    before. *)
Theorem requests_keep_loaded_modes requests w :
  let w' := run_requests pipeline_predict requests w in
  dom (models w') = dom (models w)
  ∧ stdout w' = stdout w
  ∧ (∃ new, calls w' = (calls w ++ new)%list
            ∧ (length new ≤ length requests)%nat)
  ∧ ∀ mode data,
      mode ∈ ["sale"; "rent"] → models w !! mode = None →
      fst (predict pipeline_predict mode data w')
      = inl (mkHTTPException 500 ("Model for " +:+ mode +:+ " not loaded")).
Proof.
  simpl.
  assert (dom (models (run_requests pipeline_predict requests w)) = dom (models w)
          ∧ stdout (run_requests pipeline_predict requests w) = stdout w
          ∧ ∃ new, calls (run_requests pipeline_predict requests w)
                   = (calls w ++ new)%list
                   ∧ (length new ≤ length requests)%nat) as (Hdom & Hout & Hcalls).
  { revert w. induction requests as [|[mode data] rest IH]; intros w.
    - simpl. split; [done|]. split; [done|]. exists [].
      rewrite app_nil_r. split; [done | simpl; lia].
    - simpl. destruct (IH (snd (predict pipeline_predict mode data w)))
        as (Hdom & Hout & new & Hnew & Hlen).
      destruct (predict_keeps_dom mode data w) as [Hd Hs].
      destruct (predict_calls_grow mode data w) as (one & Hone & Hlen1).
      split; [by rewrite Hdom|]. split; [by rewrite Hout|].
      exists (one ++ new)%list. rewrite Hnew, Hone, <- app_assoc.
      split; [done|]. rewrite length_app. lia. }
  repeat split; try done.
  intros mode data Hm Hw. rewrite predict_unloaded; [done..|].
  apply not_elem_of_dom. rewrite Hdom. by apply not_elem_of_dom.
Qed.

End RequestSequences.

(** ** The further theorems at concrete inputs *)

Lemma predict_error_statuses_witness :
  fst (predict sample_predict "boat" example_record sale_only)
  = inl (mkHTTPException 400 "Mode must be 'sale' or 'rent'")
  ∧ (status_code (mkHTTPException 400 "Mode must be 'sale' or 'rent'") = 400%Z
     ↔ "boat" ∉ ["sale"; "rent"]).
Proof.
  assert (fst (predict sample_predict "boat" example_record sale_only)
          = inl (mkHTTPException 400 "Mode must be 'sale' or 'rent'")) as He
    by (vm_compute; reflexivity).
  split; [assumption|].
  exact (proj1 (proj2 (predict_error_statuses sample_predict "boat"
                         example_record sale_only _ He))).
Defined.

Lemma predict_empty_prediction_witness :
  "sale" ∈ ["sale"; "rent"]
  ∧ models (world_of {[ "sale" := Empty ]}) !! "sale" = Some Empty
  ∧ fst (predict sample_predict "sale" example_record
           (world_of {[ "sale" := Empty ]}))
    = inl (mkHTTPException 500
             "index 0 is out of bounds for axis 0 with size 0").
Proof.
  assert ("sale" ∈ ["sale"; "rent"]) as Hm by left.
  assert (models (world_of {[ "sale" := Empty ]}) !! "sale" = Some Empty) as Hw
    by (vm_compute; reflexivity).
  split; [assumption|]. split; [assumption|].
  exact (predict_empty_prediction sample_predict "sale" example_record
           _ Empty Hm Hw eq_refl).
Defined.

Lemma load_models_over_store_witness :
  loadable sale_file_only "models/model_sale.pkl" = true
  ∧ loadable sale_file_only "models/model_rent.pkl" = true
  ∧ fst (load_models sale_file_only failing_sale) = inr tt.
Proof.
  assert (loadable sale_file_only "models/model_sale.pkl" = true) as Hs
    by (vm_compute; reflexivity).
  assert (loadable sale_file_only "models/model_rent.pkl" = true) as Hr
    by (vm_compute; reflexivity).
  split; [assumption|]. split; [assumption|].
  exact (proj1 (load_models_over_store sale_file_only failing_sale Hs Hr)).
Defined.

Lemma load_models_idempotent_witness :
  loadable sale_file_only "models/model_sale.pkl" = true
  ∧ loadable sale_file_only "models/model_rent.pkl" = true
  ∧ models (snd (load_models sale_file_only
                   (snd (load_models sale_file_only failing_sale))))
    = models (snd (load_models sale_file_only failing_sale)).
Proof.
  assert (loadable sale_file_only "models/model_sale.pkl" = true) as Hs
    by (vm_compute; reflexivity).
  assert (loadable sale_file_only "models/model_rent.pkl" = true) as Hr
    by (vm_compute; reflexivity).
  split; [assumption|]. split; [assumption|].
  exact (load_models_idempotent sale_file_only failing_sale Hs Hr).
Defined.

Lemma startup_then_predict_witness :
  loadable sale_file_only "models/model_sale.pkl" = true
  ∧ loadable sale_file_only "models/model_rent.pkl" = true
  ∧ "rent" ∈ ["sale"; "rent"]
  ∧ fst (predict sample_predict "rent" example_record
           (snd (load_models sale_file_only initial_world)))
    = inl (mkHTTPException 500 "Model for rent not loaded").
Proof.
  assert (loadable sale_file_only "models/model_sale.pkl" = true) as Hs
    by (vm_compute; reflexivity).
  assert (loadable sale_file_only "models/model_rent.pkl" = true) as Hr
    by (vm_compute; reflexivity).
  assert ("rent" ∈ ["sale"; "rent"]) as Hm by (right; left).
  split; [assumption|]. split; [assumption|]. split; [assumption|].
  apply (proj1 (startup_then_predict sample_predict sale_file_only "rent"
                  example_record Hs Hr Hm)).
  vm_compute. reflexivity.
Defined.

Lemma validate_refuses_null_witness :
  defaulted "hasBalcony" TInt (VInt 0) ∈ PropertyData_fields
  ∧ null_balcony !! "hasBalcony" = Some JNull
  ∧ ∃ errs, validate strict null_balcony = inl errs
            ∧ ("hasBalcony", TypeError) ∈ errs.
Proof.
  assert (defaulted "hasBalcony" TInt (VInt 0) ∈ PropertyData_fields) as Hd
    by in_schema.
  assert (null_balcony !! "hasBalcony" = Some JNull) as Hb
    by (vm_compute; reflexivity).
  split; [assumption|]. split; [assumption|].
  apply (validate_refuses_null strict null_balcony
           (defaulted "hasBalcony" TInt (VInt 0)) Hd); [|exact Hb].
  intros t. discriminate.
Defined.

Lemma validate_carries_supplied_witness :
  validate strict spec_example = inr example_record
  ∧ required "city" TStr ∈ PropertyData_fields
  ∧ dict_get example_record "city" = Some (VStr "warszawa").
Proof.
  assert (validate strict spec_example = inr example_record) as Hv
    by (vm_compute; reflexivity).
  assert (required "city" TStr ∈ PropertyData_fields) as Hd by in_schema.
  split; [assumption|]. split; [assumption|].
  apply (proj1 (validate_carries_supplied strict spec_example example_record
                  (required "city" TStr) Hv Hd)).
  - by left.
  - vm_compute. reflexivity.
Defined.

Lemma table_matches_trained_columns_witness :
  validate strict spec_example = inr example_record
  ∧ NoDup (columns (pd_DataFrame [dict example_record])).
Proof.
  assert (validate strict spec_example = inr example_record) as Hv
    by (vm_compute; reflexivity).
  split; [assumption|].
  exact (proj1 (table_matches_trained_columns strict spec_example
                  example_record Hv)).
Defined.


Lemma form_floors_ordered_witness :
  Frontend.within_widgets 2026 tenth_floor_form = true
  ∧ (Frontend.floor_count tenth_floor_form < Frontend.floor tenth_floor_form)%Z.
Proof.
  assert (Frontend.within_widgets 2026 tenth_floor_form = true) as Hw
    by (vm_compute; reflexivity).
  split; [assumption|].
  exact (form_floors_ordered strict 2026 tenth_floor_form Hw).
Defined.


(** ** The data-cleaning script: file names *)

Section FileNames.

Import Preprocess.

Lemma split_nonempty sep s : split sep s ≠ [].
Proof.
  destruct s as [|c s]; simpl; [done|].
  destruct (Ascii.eqb c sep); [done|]. by destruct (split sep s).
Qed.

Lemma split_free sep s : free_of sep s = true → split sep s = [s].
Proof.
  induction s as [|c s IH]; simpl; [done|].
  intros [Hc Hs]%andb_true_iff. apply negb_true_iff in Hc.
  by rewrite Hc, (IH Hs).
Qed.

Lemma split_app sep a b :
  split sep (a +:+ String sep b) = (split sep a ++ split sep b)%list.
Proof.
  induction a as [|c a IH]; simpl.
  - by rewrite Ascii.eqb_refl.
  - destruct (Ascii.eqb c sep); [by rewrite IH|].
    rewrite IH. pose proof (split_nonempty sep a) as Hne.
    by destruct (split sep a).
Qed.

Lemma append_assoc (a b c : string) : (a +:+ b) +:+ c = a +:+ (b +:+ c).
Proof.
  induction a as [|x a IH]; [done|].
  change (String x ((a +:+ b) +:+ c) = String x (a +:+ (b +:+ c))).
  by rewrite IH.
Qed.

Lemma free_of_app c a b :
  free_of c (a +:+ b) = free_of c a && free_of c b.
Proof.
  induction a as [|c' a IH]; simpl; [done|]. by rewrite IH, andb_assoc.
Qed.

Lemma replace_free_from s :
  free_of "."%char s = true → replace_from ".csv" "" s 0 = s.
Proof.
  induction s as [|c s IH]; [done|].
  intros [Hc Hs]%andb_true_iff. apply negb_true_iff in Hc.
  cbn [replace_from String.prefix].
  destruct (Ascii.ascii_dec "."%char c) as [<-|_];
    [by rewrite Ascii.eqb_refl in Hc|].
  by rewrite (IH Hs).
Qed.

Lemma replace_csv_suffix s :
  free_of "."%char s = true → replace ".csv" "" (s +:+ ".csv") = s.
Proof.
  unfold replace. induction s as [|c s IH]; [done|].
  intros [Hc Hs]%andb_true_iff. apply negb_true_iff in Hc.
  change (String c s +:+ ".csv") with (String c (s +:+ ".csv")).
  cbn [replace_from String.prefix].
  destruct (Ascii.ascii_dec "."%char c) as [<-|_];
    [by rewrite Ascii.eqb_refl in Hc|].
  by rewrite (IH Hs).
Qed.

Lemma basename_of_path dir name :
  free_of "/"%char name = true → basename (dir +:+ String "/"%char name) = name.
Proof.
  intros Hname. unfold basename. rewrite split_app, (split_free _ _ Hname).
  by rewrite List.last_last.
Qed.

Lemma from_end_last {A} (l : list A) (a b : A) :
  from_end (l ++ [a; b]) 2 = inr a ∧ from_end (l ++ [a; b]) 1 = inr b.
Proof.
  unfold from_end. rewrite !length_app. simpl. split.
  - replace (length l + 2 - 2)%nat with (length l + 0)%nat by lia.
    rewrite lookup_app_r by lia.
    replace (length l + 0 - length l)%nat with 0%nat by lia. simpl.
    by rewrite decide_True by lia.
  - replace (length l + 2 - 1)%nat with (length l + 1)%nat by lia.
    rewrite lookup_app_r by lia.
    replace (length l + 1 - length l)%nat with 1%nat by lia. simpl.
    by rewrite decide_True by lia.
Qed.

(** X20.  For a file in any directory whose name is a stem, an
    underscore, a year, an underscore, a month and [.csv], the stem, year
    and month holding no dot or slash and the year and month no
    underscore, the report date is made from the text year-month-01,
    whatever the stem. *)
Theorem report_date_of_dated_file dir stem year month :
  free_of "."%char (stem +:+ "_" +:+ year +:+ "_" +:+ month) = true →
  free_of "/"%char (stem +:+ "_" +:+ year +:+ "_" +:+ month) = true →
  free_of "_"%char year = true →
  free_of "_"%char month = true →
  report_date_text
    (dir +:+ "/" +:+ stem +:+ "_" +:+ year +:+ "_" +:+ month +:+ ".csv")
  = inr (year +:+ "-" +:+ month +:+ "-01").
Proof.
  intros Hdot Hslash Hyear Hmonth. unfold report_date_text.
  assert (dir +:+ "/" +:+ stem +:+ "_" +:+ year +:+ "_" +:+ month +:+ ".csv"
          = dir +:+ String "/"%char
                      ((stem +:+ "_" +:+ year +:+ "_" +:+ month) +:+ ".csv"))
    as -> by (rewrite !append_assoc; reflexivity).
  rewrite basename_of_path by (rewrite free_of_app, Hslash; reflexivity).
  rewrite (replace_csv_suffix _ Hdot).
  assert (stem +:+ "_" +:+ year +:+ "_" +:+ month
          = stem +:+ String "_"%char (year +:+ String "_"%char month))
    as -> by reflexivity.
  rewrite split_app, split_app, (split_free _ _ Hyear), (split_free _ _ Hmonth).
  simpl app. destruct (from_end_last (split "_"%char stem) year month)
    as [-> ->]. reflexivity.
Qed.

(** X21.  A file whose base name, every [.csv] removed, holds no
    underscore has a single piece, and taking the year raises
    [IndexError]. *)
Theorem report_date_needs_underscore filename :
  free_of "_"%char (replace ".csv" "" (basename filename)) = true →
  report_date_text filename
  = inl (mkException "IndexError" "list index out of range").
Proof.
  intros Hfree. unfold report_date_text. by rewrite (split_free _ _ Hfree).
Qed.

End FileNames.

(** ** The data-cleaning script: tables *)

Section Tables.

Import Preprocess.

Implicit Types (t df : Table) (col : string) (row : list Cell).

Lemma position_inj col1 col2 cols i :
  position col1 cols = Some i → position col2 cols = Some i → col1 = col2.
Proof.
  revert i. induction cols as [|c cols IH]; intros i; simpl; [done|].
  repeat case_bool_decide; intros H1 H2; simplify_eq; try done.
  - by destruct (position col2 cols).
  - by destruct (position col1 cols).
  - destruct (position col1 cols) as [j1|] eqn:E1; [|done].
    destruct (position col2 cols) as [j2|] eqn:E2; [|done].
    simpl in *. simplify_eq. by apply (IH j2).
Qed.

Lemma position_elem col cols : col ∈ cols ↔ is_Some (position col cols).
Proof.
  induction cols as [|c cols IH]; simpl.
  - split; [by intros ?%elem_of_nil | by intros [? ?]].
  - case_bool_decide as Hc.
    + split; [by eexists | intros _; rewrite Hc; left].
    + rewrite elem_of_cons, IH, fmap_is_Some. split; [|by right].
      by intros [->|?].
Qed.

Lemma omap_lookup_alter (f : Cell → Cell) i (rs : list (list Cell)) :
  omap (fun row => row !! i) (map (alter f i) rs)
  = map f (omap (fun row : list Cell => row !! i) rs).
Proof.
  induction rs as [|row rs IH]; [done|]. cbn [map]. csimpl.
  rewrite list_lookup_alter_eq. destruct (row !! i); csimpl; by rewrite IH.
Qed.

Lemma omap_lookup_alter_ne (f : Cell → Cell) i j (rs : list (list Cell)) :
  i ≠ j →
  omap (fun row => row !! j) (map (alter f i) rs)
  = omap (fun row : list Cell => row !! j) rs.
Proof.
  intros Hij. induction rs as [|row rs IH]; [done|]. cbn [map]. csimpl.
  rewrite list_lookup_alter_ne by done. by rewrite IH.
Qed.

Lemma columns_map_column col f t : columns (map_column col f t) = columns t.
Proof. unfold map_column. by destruct (position col (columns t)). Qed.

Lemma column_map_column col f t :
  column col (map_column col f t) = map f (column col t).
Proof.
  unfold column, map_column.
  destruct (position col (columns t)) as [i|] eqn:Hi; simpl; [|by rewrite Hi].
  rewrite Hi. apply omap_lookup_alter.
Qed.

Lemma column_map_column_ne col col' f t :
  col' ≠ col → column col' (map_column col f t) = column col' t.
Proof.
  intros Hne. unfold column, map_column.
  destruct (position col (columns t)) as [i|] eqn:Hi; simpl; [|done].
  destruct (position col' (columns t)) as [j|] eqn:Hj; [|done].
  apply omap_lookup_alter_ne.
  intros ->. by apply Hne, (position_inj col' col (columns t) j).
Qed.

Lemma map_column_if col f t :
  (if bool_decide (col ∈ columns t) then map_column col f t else t)
  = map_column col f t.
Proof.
  case_bool_decide as Hin; [done|]. unfold map_column.
  destruct (position col (columns t)) eqn:Hp; [|done].
  exfalso. apply Hin, position_elem. by eexists.
Qed.

Lemma fold_map_column cols f t :
  NoDup cols →
  let t' := fold_left (fun t col =>
                         if bool_decide (col ∈ columns t)
                         then map_column col f t else t) cols t in
  columns t' = columns t
  ∧ ∀ col, column col t'
           = if bool_decide (col ∈ cols) then map f (column col t)
             else column col t.
Proof.
  revert t. induction cols as [|c cols IH]; intros t Hnd; simpl.
  - by split.
  - apply NoDup_cons in Hnd as [Hc Hnd]. rewrite map_column_if.
    destruct (IH (map_column c f t) Hnd) as [Hcols Hcol].
    split; [by rewrite Hcols, columns_map_column|].
    intros col. rewrite Hcol. destruct (decide (col = c)) as [->|Hne].
    + rewrite (bool_decide_eq_false_2 (c ∈ cols)) by done.
      rewrite bool_decide_eq_true_2 by left. apply column_map_column.
    + rewrite !column_map_column_ne by done.
      case_bool_decide as H1; case_bool_decide as H2; try done.
      * exfalso. apply H2. by right.
      * apply elem_of_cons in H2 as [?|?]; done.
Qed.

(** The in-place steps, column by column. *)
Lemma clean_in_place_columns df :
  columns (clean_in_place df) = columns df
  ∧ (∀ flag, flag ∈ boolean_cols →
       column flag (clean_in_place df) = map yes_no (column flag df))
  ∧ column "condition" (clean_in_place df)
    = map fill_unknown (column "condition" df)
  ∧ ∀ col, col ∉ boolean_cols → col ≠ "condition" →
      column col (clean_in_place df) = column col df.
Proof.
  unfold clean_in_place.
  assert (NoDup boolean_cols) as Hnd
    by (apply (bool_decide_unpack _); by vm_compute).
  assert ("condition" ∉ boolean_cols) as Hcond
    by (apply (bool_decide_unpack _); by vm_compute).
  destruct (fold_map_column boolean_cols yes_no df Hnd) as [Hcols Hcol].
  set (t1 := fold_left _ boolean_cols df) in *.
  rewrite map_column_if. split; [by rewrite columns_map_column|].
  split; [|split].
  - intros flag Hflag. rewrite column_map_column_ne by (by intros ->).
    by rewrite Hcol, bool_decide_eq_true_2.
  - rewrite column_map_column, Hcol. by rewrite bool_decide_eq_false_2.
  - intros col Hcol' Hne. rewrite column_map_column_ne by done.
    by rewrite Hcol, bool_decide_eq_false_2.
Qed.

Lemma yes_no_flag c : yes_no c = Obj (VInt 0) ∨ yes_no c = Obj (VInt 1).
Proof.
  destruct c as [[| | |s]|]; simpl; auto.
  destruct (String.eqb s "yes"); auto. destruct (String.eqb s "no"); auto.
Qed.



(** Rows taken out of a table leave each column with cells it had. *)
Lemma column_of_fewer_rows (P : Cell → Prop) col t t' :
  columns t' = columns t → rows t' ⊆ rows t →
  Forall P (column col t) → Forall P (column col t').
Proof.
  unfold column. intros -> Hrows.
  destruct (position col (columns t)) as [i|]; [|done].
  rewrite !Forall_forall. intros Hall c (row & Hrow & Hc)%list_elem_of_omap.
  apply Hall, list_elem_of_omap. exists row. split; [by apply Hrows | done].
Qed.

Section Rows.

Variable same_row : list Cell → list Cell → bool.

Lemma drop_duplicates_from_sub before rows :
  drop_duplicates_from same_row before rows `sublist_of` rows.
Proof.
  revert before. induction rows as [|row rows IH]; intros before; simpl.
  - constructor.
  - destruct (existsb _ before); [apply sublist_cons | apply sublist_skip];
      apply IH.
Qed.

Lemma drop_duplicates_from_distinct before rows :
  Forall (fun row => Forall (fun earlier => same_row earlier row = false) before)
    (drop_duplicates_from same_row before rows)
  ∧ ForallOrdPairs (fun a b => same_row a b = false)
      (drop_duplicates_from same_row before rows).
Proof.
  revert before. induction rows as [|row rows IH]; intros before; simpl.
  - split; constructor.
  - destruct (IH (before ++ [row])%list) as [Hbefore Hpairs].
    assert (Forall (fun r => Forall (fun earlier => same_row earlier r = false)
                               before)
              (drop_duplicates_from same_row (before ++ [row]) rows)) as Hb.
    { eapply Forall_impl; [exact Hbefore|]. intros r Hr.
      by apply Forall_app in Hr as [? _]. }
    destruct (existsb (fun earlier => same_row earlier row) before) eqn:Hex.
    + by split.
    + split.
      * constructor; [|done]. apply Forall_forall. intros earlier Hin.
        destruct (same_row earlier row) eqn:Hsame; [|done].
        assert (existsb (fun earlier => same_row earlier row) before = true)
          as Habs by (apply existsb_exists; exists earlier;
                      split; [by apply list_elem_of_In | done]).
        by rewrite Hex in Habs.
      * constructor; [|done]. apply List.Forall_forall.
        intros r Hr%list_elem_of_In.
        rewrite Forall_forall in Hbefore. specialize (Hbefore r Hr).
        apply Forall_app in Hbefore as [_ Hrow].
        by apply (Forall_singleton (fun earlier => same_row earlier r = false))
          in Hrow.
Qed.

Lemma ordered_pairs_filter {A} (R : A → A → Prop) (keep : A → bool) l :
  ForallOrdPairs R l → ForallOrdPairs R (List.filter keep l).
Proof.
  induction 1 as [|a l Ha Hl IH]; simpl; [constructor|].
  destruct (keep a); [|done]. constructor; [|done].
  apply List.Forall_forall. intros x [Hx _]%filter_In.
  by apply (proj1 (List.Forall_forall _ _) Ha).
Qed.

Lemma filter_sub {A} (keep : A → bool) (l : list A) :
  List.filter keep l `sublist_of` l.
Proof.
  induction l as [|a l IH]; simpl; [constructor|].
  destruct (keep a); by constructor.
Qed.

(** [clean_data] in full when there is a price column at position [i]. *)
Lemma clean_data_priced df i :
  position "price" (columns df) = Some i →
  snd (clean_data same_row df)
  = inr (mkTable (columns df)
           (List.filter (fun row => match row !! i with
                                    | Some c => negb (isna c)
                                    | None => false
                                    end)
              (drop_duplicates_from same_row [] (rows (clean_in_place df))))).
Proof.
  intros Hi. unfold clean_data. cbn [snd]. unfold dropna, drop_duplicates.
  cbn [columns rows]. rewrite (proj1 (clean_in_place_columns df)).
  by rewrite Hi.
Qed.

Lemma clean_data_unpriced df :
  position "price" (columns df) = None →
  snd (clean_data same_row df) = inl (mkException "KeyError" "['price']").
Proof.
  intros Hi. unfold clean_data. cbn [snd]. unfold dropna, drop_duplicates.
  cbn [columns rows]. rewrite (proj1 (clean_in_place_columns df)).
  by rewrite Hi.
Qed.

Lemma clean_data_result df result :
  snd (clean_data same_row df) = inr result →
  columns result = columns df
  ∧ rows result `sublist_of` rows (clean_in_place df)
  ∧ ForallOrdPairs (fun a b => same_row a b = false) (rows result)
  ∧ Forall (fun c => isna c = false) (column "price" result).
Proof.
  destruct (position "price" (columns df)) as [i|] eqn:Hi.
  - rewrite (clean_data_priced df i Hi).
    pose proof (drop_duplicates_from_sub [] (rows (clean_in_place df))) as Hsub.
    pose proof (proj2 (drop_duplicates_from_distinct []
                         (rows (clean_in_place df)))) as Hpairs.
    generalize dependent (drop_duplicates_from same_row []
                            (rows (clean_in_place df))).
    intros kept Hsub Hpairs Heq. injection Heq as <-. cbn [columns rows].
    split; [done|]. split; [|split].
    + etrans; [apply filter_sub | exact Hsub].
    + by apply ordered_pairs_filter.
    + unfold column. cbn [columns rows]. rewrite Hi. apply Forall_forall.
      intros c (row & Hrow & Hc)%list_elem_of_omap.
      apply list_elem_of_In, filter_In in Hrow as [_ Hkeep].
      rewrite Hc in Hkeep. by apply negb_true_iff.
  - by rewrite (clean_data_unpriced df Hi).
Qed.

End Rows.

End Tables.

(** ** The data-cleaning script: [clean_data] *)

Section CleanDataFacts.

Import Preprocess.

Variable same_row : list Cell → list Cell → bool.

Implicit Types (df result : Table).

Lemma rows_map_column_length col f df :
  length (rows (map_column col f df)) = length (rows df).
Proof.
  unfold map_column. destruct (position col (columns df)); [|done].
  cbn [rows]. apply length_map.
Qed.

Lemma clean_in_place_length df :
  length (rows (clean_in_place df)) = length (rows df).
Proof.
  unfold clean_in_place. rewrite map_column_if, rows_map_column_length.
  generalize boolean_cols. intros cols. revert df.
  induction cols as [|c cols IH]; intros df; [done|].
  cbn [fold_left]. by rewrite IH, map_column_if, rows_map_column_length.
Qed.

Lemma result_column (P : Cell → Prop) col df result :
  snd (clean_data same_row df) = inr result →
  Forall P (column col (clean_in_place df)) → Forall P (column col result).
Proof.
  intros (Hcols & Hrows & _)%clean_data_result.
  apply column_of_fewer_rows.
  - by rewrite Hcols, (proj1 (clean_in_place_columns df)).
  - by apply sublist_subseteq.
Qed.

Lemma flags_after_cleaning flag df :
  flag ∈ boolean_cols →
  Forall (fun c => c = Obj (VInt 0) ∨ c = Obj (VInt 1))
    (column flag (clean_in_place df)).
Proof.
  intros Hflag.
  destruct (clean_in_place_columns df) as (_ & Hflags & _).
  rewrite (Hflags flag Hflag). apply Forall_forall.
  intros c (c0 & -> & _)%list_elem_of_fmap. apply yes_no_flag.
Qed.


(** X23.  Cleaning a table that [clean_data] returned turns every cell
    of every amenity column into 0, the ones that were 1 included: the
    cells are integers by then, and only the string "yes" gives 1. *)
Theorem clean_data_twice_clears_flags flag df once :
  snd (clean_data same_row df) = inr once →
  flag ∈ boolean_cols →
  Forall (fun c => c = Obj (VInt 0)) (column flag (fst (clean_data same_row once)))
  ∧ ∀ twice, snd (clean_data same_row once) = inr twice →
      Forall (fun c => c = Obj (VInt 0)) (column flag twice).
Proof.
  intros Honce Hflag.
  assert (Forall (fun c => c = Obj (VInt 0)) (column flag (clean_in_place once)))
    as Hzero.
  { destruct (clean_in_place_columns once) as (_ & Hflags & _).
    rewrite (Hflags flag Hflag). apply Forall_forall.
    intros c (c0 & -> & Hc0)%list_elem_of_fmap.
    pose proof (result_column _ flag df once Honce
                  (flags_after_cleaning flag df Hflag)) as Hcells.
    rewrite Forall_forall in Hcells. by destruct (Hcells c0 Hc0) as [-> | ->]. }
  split; [exact Hzero|].
  intros twice Htwice. by apply (result_column _ flag once twice Htwice).
Qed.


(** X25.  The rows [clean_data] returns are rows of the table as cleaned
    in place, in their order; none of them is a duplicate of one before
    it; and there are no more of them than rows given. *)
Theorem clean_data_rows df result :
  snd (clean_data same_row df) = inr result →
  rows result `sublist_of` rows (fst (clean_data same_row df))
  ∧ ForallOrdPairs (fun a b => same_row a b = false) (rows result)
  ∧ (length (rows result) ≤ length (rows df))%nat.
Proof.
  intros Hres. destruct (clean_data_result same_row df result Hres)
    as (_ & Hsub & Hpairs & _).
  split; [exact Hsub|]. split; [exact Hpairs|].
  rewrite <- (clean_in_place_length df). by apply sublist_length.
Qed.


End CleanDataFacts.

Lemma report_date_of_dated_file_witness :
  Preprocess.free_of "."%char "apartments_pl_2023_09" = true
  ∧ Preprocess.free_of "/"%char "apartments_pl_2023_09" = true
  ∧ Preprocess.free_of "_"%char "2023" = true
  ∧ Preprocess.free_of "_"%char "09" = true
  ∧ Preprocess.report_date_text "data/raw/apartments/apartments_pl_2023_09.csv"
    = inr "2023-09-01".
Proof.
  repeat (split; [reflexivity|]).
  exact (report_date_of_dated_file "data/raw/apartments" "apartments_pl"
           "2023" "09" eq_refl eq_refl eq_refl eq_refl).
Defined.

Lemma report_date_needs_underscore_witness :
  Preprocess.free_of "_"%char
    (Preprocess.replace ".csv" "" (Preprocess.basename "data/raw/rent/rent.csv"))
  = true
  ∧ Preprocess.report_date_text "data/raw/rent/rent.csv"
    = inl (mkException "IndexError" "list index out of range").
Proof.
  split; [reflexivity|].
  exact (report_date_needs_underscore "data/raw/rent/rent.csv" eq_refl).
Defined.


Lemma clean_data_twice_clears_flags_witness :
  snd (Preprocess.clean_data same_cells raw_listings) = inr clean_listings
  ∧ "hasBalcony" ∈ Preprocess.boolean_cols
  ∧ Forall (fun c => c = Preprocess.Obj (VInt 0))
      (Preprocess.column "hasBalcony"
         (fst (Preprocess.clean_data same_cells clean_listings))).
Proof.
  assert (snd (Preprocess.clean_data same_cells raw_listings)
          = inr clean_listings) as Hres by (vm_compute; reflexivity).
  assert ("hasBalcony" ∈ Preprocess.boolean_cols) as Hflag by (right; left).
  split; [assumption|]. split; [assumption|].
  exact (proj1 (clean_data_twice_clears_flags same_cells "hasBalcony"
                  raw_listings clean_listings Hres Hflag)).
Defined.


Lemma clean_data_rows_witness :
  snd (Preprocess.clean_data same_cells raw_listings) = inr clean_listings
  ∧ (length (Preprocess.rows clean_listings)
     ≤ length (Preprocess.rows raw_listings))%nat.
Proof.
  assert (snd (Preprocess.clean_data same_cells raw_listings)
          = inr clean_listings) as Hres by (vm_compute; reflexivity).
  split; [assumption|].
  exact (proj2 (proj2 (clean_data_rows same_cells raw_listings
                         clean_listings Hres))).
Defined.
